(** * scripts/get_roads_city.py: boundary extraction, road classification
      and the extract URL of [OSMCityPipeline]

    A shallow embedding of the three methods of [OSMCityPipeline] that
    compute something ([_extract_city_boundaries], [_generate_bbbike_url],
    [_extract_road_data]) and the properties of the specification that
    concern them.

    Modelling decisions, all visible in the definitions below:
    - a [shapefile.Reader] is the data it hands out: [fields], [records()]
      and [shapes()];
    - the code never computes with a coordinate: it compares coordinates
      with [<] and [>] (inside [min] and [max]) and formats them in an
      f-string.  Coordinates are therefore any type carrying these
      operations ([Coord]); the laws of [<] that a proof needs are a
      separate class ([CoordOrder]);
    - an exception is a value of [exn]; [print] appends a [message] to the
      output, so a method is a function into [M], output and outcome;
    - [pd.DataFrame] pads and checks the rows and converts every column to
      the type pandas infers for it; the conversion of a column is a
      parameter ([Pandas]), with the conversion of pandas 2 as instance. *)

From stdpp Require Import base list strings pretty.
From Stdlib Require Import ZArith Ascii.

Local Open Scope string_scope.
Local Open Scope list_scope.

(** ** Coordinates *)

(** What the code asks of a coordinate. [coord_lt] is Python's [<];
    [coord_str] is the text an f-string field [{x}] produces. *)
Class Coord (C : Type) := {
  coord_lt : C → C → bool;
  coord_str : C → string;
}.

(** [x > y], which [max] uses, is [y < x]. *)
Definition coord_gt `{Coord C} (x y : C) : bool := coord_lt y x.

(** [x ≤ y] read off [<]: [y] is not below [x].  On the coordinates a
    shapefile may hold (finite floats; the format excludes NaN) this is
    Python's [x <= y]. *)
Definition coord_le `{Coord C} (x y : C) : Prop := coord_lt y x = false.

(** Numerically equal coordinates: neither is below the other. *)
Definition coord_eqv `{Coord C} (x y : C) : Prop := coord_le x y ∧ coord_le y x.

(** [<] is a strict order, as it is on floats. *)
Class CoordOrder (C : Type) `{Coord C} : Prop := {
  coord_lt_irrefl : ∀ x : C, coord_lt x x = false;
  coord_lt_trans : ∀ x y z : C,
    coord_lt x y = true → coord_lt y z = true → coord_lt x z = true;
}.

(** ** Data of a shapefile *)

Section data.
Context {C : Type}.

(** An attribute value of a record, as pyshp decodes the dbf columns, or a
    cell of a DataFrame: [VNaN] is the missing value of a float column,
    which no record holds. *)
Inductive value :=
  | VStr (s : string)
  | VInt (n : Z)
  | VFloat (x : C)
  | VBool (b : bool)
  | VDate (year month day : Z)
  | VNone
  | VNaN.

Definition record := list value.

Definition point : Type := C * C.

Record Shape := {
  shapeType : Z;
  points : list point;
}.

(** A field descriptor, [name, type, size, decimal]. *)
Record field := {
  field_name : string;
  field_type : string;
  field_size : Z;
  field_decimal : Z;
}.

(** [sf.fields], [sf.records()], [sf.shapes()]. *)
Record Reader := {
  sf_fields : list field;
  sf_records : list record;
  sf_shapes : list Shape;
}.

Definition bbox : Type := C * C * C * C.

(** [pd.DataFrame]: column names and rows. *)
Record DataFrame := {
  columns : list string;
  rows : list (list value);
}.

(** ** Exceptions and output *)

Inductive value_error :=
  | NotInList (x : string)
      (* list.index(x) *)
  | CityNotFound (city_name city_field_name : string)
      (* raise ValueError(f"City '...' not found ...") *)
  | EmptyMinMax
      (* min() or max() of an empty iterable *)
  | ColumnsMismatch (passed got : nat).
      (* pd.DataFrame: "N columns passed, passed data had M columns" *)

Inductive exn :=
  | ValueError (why : value_error)
  | IndexError.

(** One [print] call each; the constructor carries the values the
    f-string interpolates. *)
Inductive message :=
  | MsgFieldNotFound (city_field_name : string) (fields : list string)
  | MsgNoRoadTypeField (fields : list string)
  | MsgFallback
  | MsgUsing (road_type_field : string)
  | MsgUniqueRoadTypes (values : list value).

Inductive result (A : Type) :=
  | Ok (a : A)
  | Raise (e : exn).
Global Arguments Ok {A} a.
Global Arguments Raise {A} e.

(** Output so far and outcome. *)
Definition M (A : Type) : Type := list message * result A.

Definition raise {A} (e : exn) : M A := ([], Raise e).
Definition print (m : message) : M unit := ([m], Ok tt).

End data.

Global Arguments value : clear implicits.
Global Arguments record : clear implicits.
Global Arguments point : clear implicits.
Global Arguments Shape : clear implicits.
Global Arguments Reader : clear implicits.
Global Arguments bbox : clear implicits.
Global Arguments DataFrame : clear implicits.
Global Arguments message : clear implicits.
Global Arguments M : clear implicits.

(** [M] is a monad: output is appended, an exception stops the rest. *)
Global Instance M_ret {C} : MRet (M C) := λ A a, ([], Ok a).
Global Instance M_bind {C} : MBind (M C) := λ A B f m,
  match m with
  | (out, Ok a) => let '(out', r) := f a in (out ++ out', r)
  | (out, Raise e) => (out, Raise e)
  end.

(** What [pd.DataFrame] does to a column of given values: pandas infers a
    type for the column and converts its values to it. *)
Class Pandas (C : Type) := {
  maybe_convert_objects : list (value C) → list (value C);
}.

(** ** The methods *)

Section pipeline.
Context `{Coord C} `{Pandas C}.

(** [record[i]] *)
Definition getitem (record : record C) (i : nat) : M C (value C) :=
  match record !! i with
  | Some v => mret v
  | None => raise IndexError
  end.

(** [l.index(x)]: the first position of [x], [None] for [ValueError]. *)
Fixpoint list_index (x : string) (l : list string) : option nat :=
  match l with
  | [] => None
  | y :: l' => if decide (y = x) then Some 0 else S <$> list_index x l'
  end.

(** [v == s] for a [str] [s]: only an equal [str] compares equal. *)
Definition py_eq_str (v : value C) (s : string) : bool :=
  match v with
  | VStr t => bool_decide (t = s)
  | _ => false
  end.

(** [v in l] for a list [l] of [str]. *)
Definition py_in (v : value C) (l : list string) : bool :=
  existsb (py_eq_str v) l.

(** [min(xs)]: the running minimum is replaced by a later item only when
    [item < minimum]. *)
Definition py_min (xs : list C) : M C C :=
  match xs with
  | [] => raise (ValueError EmptyMinMax)
  | x :: rest => mret (foldl (λ cur item, if coord_lt item cur then item else cur) x rest)
  end.

(** [max(xs)]: replaced only when [item > maximum]. *)
Definition py_max (xs : list C) : M C C :=
  match xs with
  | [] => raise (ValueError EmptyMinMax)
  | x :: rest => mret (foldl (λ cur item, if coord_gt item cur then item else cur) x rest)
  end.

(** [[field[0] for field in sf.fields[1:]]] *)
Definition fields_of (sf : Reader C) : list string :=
  field_name <$> tail (sf_fields sf).

(** [[shape for record, shape in pairs if cond(record)]] *)
Fixpoint shapes_where (cond : record C → M C bool)
    (pairs : list (record C * Shape C)) : M C (list (Shape C)) :=
  match pairs with
  | [] => mret []
  | (record, shape) :: rest =>
      keep ← cond record;
      shapes ← shapes_where cond rest;
      mret (if (keep : bool) then shape :: shapes else shapes)
  end.

Definition _extract_city_boundaries (sf : Reader C)
    (city_name city_field_name : string) : M C (list (Shape C) * bbox C) :=
  let fields := fields_of sf in
  let records := sf_records sf in
  name_index ←
    match list_index city_field_name fields with
    | Some i => mret i
    | None =>
        print (MsgFieldNotFound city_field_name fields);;
        raise (ValueError (NotInList city_field_name))
    end;
  city_shapes ←
    shapes_where (λ record, v ← getitem record name_index; mret (py_eq_str v city_name))
                 (zip records (sf_shapes sf));
  match city_shapes with
  | [] => raise (ValueError (CityNotFound city_name city_field_name))
  | _ =>
      let all_points := shape ← city_shapes; points shape in
      min_x ← py_min (fst <$> all_points);
      min_y ← py_min (snd <$> all_points);
      max_x ← py_max (fst <$> all_points);
      max_y ← py_max (snd <$> all_points);
      mret (city_shapes, (min_x, min_y, max_x, max_y))
  end.

Definition _generate_bbbike_url (b : bbox C) : string :=
  let '(min_x, min_y, max_x, max_y) := b in
  "http://extract.bbbike.org/?sw_lng=" +:+ coord_str min_x
    +:+ "&sw_lat=" +:+ coord_str min_y
    +:+ "&ne_lng=" +:+ coord_str max_x
    +:+ "&ne_lat=" +:+ coord_str max_y.

Definition road_type_candidates : list string :=
  ["type"; "highway"; "road_type"; "roadtype"; "class"].

(** The [for candidate in ...: if candidate in fields: ...; break] loop. *)
Fixpoint find_candidate (candidates fields : list string) : option string :=
  match candidates with
  | [] => None
  | candidate :: rest =>
      if bool_decide (candidate ∈ fields) then Some candidate
      else find_candidate rest fields
  end.

(** Lines 134 to 149 of [_extract_road_data], for any candidate list. *)
Definition road_type_index_of (candidates fields : list string) : M C nat :=
  road_type_field ←
    match find_candidate candidates fields with
    | Some candidate => mret candidate
    | None =>
        print (MsgNoRoadTypeField fields);;
        print MsgFallback;;
        match fields !! 0 with
        | Some f => mret f
        | None => raise IndexError
        end
    end;
  road_type_index ←
    match list_index road_type_field fields with
    | Some i => mret i
    | None => raise (ValueError (NotInList road_type_field))
    end;
  print (MsgUsing road_type_field);;
  mret road_type_index.

(** The [for record, shape in zip(...)] loop that fills [road_data]. *)
Fixpoint road_data_loop (road_type_index : nat) (road_types_of_interest : list string)
    (pairs : list (record C * Shape C)) (road_data : list (list (value C)))
    : M C (list (list (value C))) :=
  match pairs with
  | [] => mret road_data
  | (record, shape) :: rest =>
      v ← getitem record road_type_index;
      if negb (py_in v road_types_of_interest)
      then road_data_loop road_type_index road_types_of_interest rest road_data
      else if (shapeType shape =? 3)%Z then
        match points shape with
        | [] => road_data_loop road_type_index road_types_of_interest rest road_data
        | first :: _ =>
            let '(start_lat, start_long) := first in
            let '(end_lat, end_long) := default first (last (points shape)) in
            road_data_loop road_type_index road_types_of_interest rest
              (road_data ++ [record ++ [VFloat start_lat; VFloat start_long;
                                        VFloat end_lat; VFloat end_long]])
        end
      else road_data_loop road_type_index road_types_of_interest rest road_data
  end.

(** Column [j] of a list of rows. *)
Definition column_of (j : nat) (data : list (list (value C))) : list (value C) :=
  (λ row, default VNone (row !! j)) <$> data.

(** The cells of a DataFrame built from rows of [width] values each, row
    by row: the cell of row [k] in column [j] is the value at [k] of the
    converted column [j]. *)
Definition pd_cells (width : nat) (data : list (list (value C)))
    : list (list (value C)) :=
  let converted := (λ j, maybe_convert_objects (column_of j data)) <$> seq 0 width in
  (λ k, (λ col, default VNone (col !! k)) <$> converted) <$> seq 0 (length data).

(** [pd.DataFrame(data, columns=cols)] for a list of rows: short rows are
    padded to the longest, the longest must have [len(cols)] cells, and
    every column is converted to the type pandas infers for it. *)
Definition pd_DataFrame (data : list (list (value C))) (cols : list string)
    : M C (DataFrame C) :=
  match data with
  | [] => mret {| columns := cols; rows := [] |}
  | _ =>
      let width := max_list (length <$> data) in
      if decide (width = length cols)
      then mret {| columns := cols;
                   rows := pd_cells width
                             ((λ row, row ++ replicate (width - length row) VNone)
                                <$> data) |}
      else raise (ValueError (ColumnsMismatch (length cols) width))
  end.

(** [unique_road_types] is only printed; the list of the column's values
    stands for the set built from them. *)
Definition _extract_road_data (sf : Reader C) (road_types_of_interest : list string)
    : M C (list (Shape C) * DataFrame C) :=
  let fields := fields_of sf in
  let records := sf_records sf in
  road_type_index ← road_type_index_of road_type_candidates fields;
  unique_road_types ← mapM (λ record, getitem record road_type_index) records;
  print (MsgUniqueRoadTypes unique_road_types);;
  selected_roads ←
    shapes_where (λ record, v ← getitem record road_type_index;
                            mret (py_in v road_types_of_interest))
                 (zip records (sf_shapes sf));
  road_data ← road_data_loop road_type_index road_types_of_interest
                 (zip records (sf_shapes sf)) [];
  df_roads ← pd_DataFrame road_data
                 (fields ++ ["start_lat"; "start_long"; "end_lat"; "end_long"]);
  mret (selected_roads, df_roads).

End pipeline.

(** ** Vocabulary of the specification *)

Section vocabulary.
Context {C : Type}.

(** Every record has one value per field of the schema. *)
Definition records_fit (sf : Reader C) : Prop :=
  Forall (λ r : record C, length r = length (fields_of sf)) (sf_records sf).

(** The (record, geometry) pairs of a store, in store order. *)
Definition pairs_of (sf : Reader C) : list (record C * Shape C) :=
  zip (sf_records sf) (sf_shapes sf).

(** The value of field [i] is exactly the string [s]. *)
Definition field_is (i : nat) (s : string) (r : record C) : Prop :=
  r !! i = Some (VStr s).

(** The value of field [i] is one of the strings [types]. *)
Definition field_in (i : nat) (types : list string) (r : record C) : Prop :=
  Exists (λ t, field_is i t r) types.

(** A pair that gets a row: type matched, polyline, at least one point. *)
Definition row_eligible (i : nat) (types : list string)
    (p : record C * Shape C) : Prop :=
  field_in i types p.1 ∧ shapeType p.2 = 3%Z ∧ points p.2 ≠ [].

Global Instance field_is_dec i s r : Decision (field_is i s r).
Proof.
  unfold field_is. destruct (r !! i) as [v|]; [|right; discriminate].
  destruct v as [t| | | | | |]; try (right; discriminate).
  destruct (decide (t = s)) as [->|Hne]; [left; reflexivity|right; congruence].
Defined.

Global Instance field_in_dec i types r : Decision (field_in i types r).
Proof. unfold field_in. apply _. Defined.

Global Instance row_eligible_dec i types p : Decision (row_eligible i types p).
Proof. unfold row_eligible. apply _. Defined.

(** All points of a list of geometries, flattened in order. *)
Definition all_points_of (shapes : list (Shape C)) : list (point C) :=
  shape ← shapes; points shape.

(** The row of a pair as the specification words it: the record's fields,
    then both coordinates of the first point, then both of the last. *)
Definition road_row (p : record C * Shape C) : list (value C) :=
  match head (points p.2), last (points p.2) with
  | Some first, Some final =>
      p.1 ++ [VFloat first.1; VFloat first.2; VFloat final.1; VFloat final.2]
  | _, _ => p.1
  end.

(** The schema of the store with the deletion flag in front. *)
Definition schema (names : list string) : list field :=
  (λ n, {| field_name := n; field_type := "C"; field_size := 50; field_decimal := 0 |})
    <$> ("DeletionFlag" :: names).

End vocabulary.

(** ** Reading a query string back *)

(** The pieces of [s] between occurrences of [sep]. *)
Fixpoint split_on (sep : ascii) (s : string) : list string :=
  match s with
  | "" => [""]
  | String a s' =>
      if decide (a = sep) then "" :: split_on sep s'
      else match split_on sep s' with
           | w :: ws => String a w :: ws
           | [] => [String a ""]
           end
  end.

(** [s] cut at its first [sep]: what is before, what is after. *)
Fixpoint cut_at (sep : ascii) (s : string) : string * string :=
  match s with
  | "" => ("", "")
  | String a s' =>
      if decide (a = sep) then ("", s')
      else let '(k, v) := cut_at sep s' in (String a k, v)
  end.

Fixpoint has_char (c : ascii) (s : string) : bool :=
  match s with
  | "" => false
  | String a s' => bool_decide (a = c) || has_char c s'
  end.

(** The query string of a URL: from its first question mark on. *)
Fixpoint query_string (url : string) : string :=
  match url with
  | "" => ""
  | String a url' => if decide (a = "?"%char) then url else query_string url'
  end.

(** The [name=value] parameters of a URL, in order. *)
Definition query_params (url : string) : list (string * string) :=
  match query_string url with
  | String _ q => cut_at "="%char <$> split_on "&"%char q
  | "" => []
  end.

Definition param (name : string) (ps : list (string * string)) : option string :=
  (snd ∘ snd) <$> list_find (λ kv, kv.1 = name) ps.

(** The bounding box a URL carries, its numbers read by [float_of_str]. *)
Definition bbox_of_url {C} (float_of_str : string → option C) (url : string)
    : option (bbox C) :=
  let ps := query_params url in
  min_x ← param "sw_lng" ps ≫= float_of_str;
  min_y ← param "sw_lat" ps ≫= float_of_str;
  max_x ← param "ne_lng" ps ≫= float_of_str;
  max_y ← param "ne_lat" ps ≫= float_of_str;
  Some (min_x, min_y, max_x, max_y).

(** ** An instance: coordinates counted in tenths *)

(** [727] stands for 72.7 and prints as Python prints that float. *)
Definition tenths_str (z : Z) : string :=
  (if (z <? 0)%Z then "-" else "")
    +:+ pretty (Z.abs z / 10)%Z +:+ "." +:+ pretty (Z.abs z mod 10)%Z.

Definition digit_of (a : ascii) : option Z :=
  let n := (Z.of_N (N_of_ascii a) - 48)%Z in
  if bool_decide (0 ≤ n ≤ 9)%Z then Some n else None.

Fixpoint digits_to_Z (s : string) (acc : Z) : option Z :=
  match s with
  | "" => Some acc
  | String a s' => d ← digit_of a; digits_to_Z s' (10 * acc + d)%Z
  end.

Definition tenths_of_str (s : string) : option Z :=
  let '(sign, body) :=
    match s with
    | String "-" s' => ((-1)%Z, s')
    | _ => (1%Z, s)
    end in
  let '(whole, frac) := cut_at "."%char body in
  w ← digits_to_Z whole 0;
  f ← digits_to_Z frac 0;
  if bool_decide (String.length frac = 1) then Some (sign * (10 * w + f))%Z else None.

Global Instance tenths_coord : Coord Z := {|
  coord_lt := Z.ltb;
  coord_str := tenths_str;
|}.

(** ** An instance: the column types of pandas *)

Definition is_number {C} (v : value C) : bool :=
  match v with VInt _ | VFloat _ => true | _ => false end.

Definition is_null {C} (v : value C) : bool :=
  match v with VNone | VNaN => true | _ => false end.

(** A value as a cell of a float column. *)
Definition to_float {C} (float_of_int : Z → C) (v : value C) : value C :=
  match v with
  | VInt n => VFloat (float_of_int n)
  | VNone => VNaN
  | _ => v
  end.

(** The conversion pandas 2 makes of a column holding 64-bit integers,
    floats, strings, booleans, dates and [None]: a column of numbers and
    nulls becomes a float column when it holds a float, or a number or
    NaN beside a null (an integer becomes the float of that value, [None]
    becomes NaN); any other column keeps its values. *)
Definition pandas_infer {C} (float_of_int : Z → C) (col : list (value C))
    : list (value C) :=
  if forallb (λ v, is_number v || is_null v) col then
    if existsb (λ v, match v with VFloat _ => true | _ => false end) col
       || (existsb is_null col
           && (existsb is_number col
               || existsb (λ v, match v with VNaN => true | _ => false end) col))
    then to_float float_of_int <$> col
    else col
  else col.

(** In tenths the integer [n] is the float [10 * n]. *)
Global Instance tenths_pandas : Pandas Z := {|
  maybe_convert_objects := pandas_infer (λ n, 10 * n)%Z;
|}.

(** ** Example stores *)

Local Open Scope Z_scope.

Definition polyline (pts : list (point Z)) : Shape Z :=
  {| shapeType := 3; points := pts |}.

(** The scenario of the specification: schema [NAME_2, highway] and three
    records, with the geometries left open. *)
Definition scenario_store (g1 g2 g3 : Shape Z) : Reader Z := {|
  sf_fields := schema ["NAME_2"; "highway"];
  sf_records := [ [VStr "CityA"; VStr "primary"];
                  [VStr "CityA"; VStr "footway"];
                  [VStr "CityB"; VStr "primary"] ];
  sf_shapes := [g1; g2; g3];
|}.

Definition road_a : Shape Z := polyline [(727, 188); (728, 190); (730, 193)].
Definition road_b : Shape Z := polyline [(729, 191)].
Definition road_c : Shape Z := polyline [(700, 180); (701, 181)].

(** A boundary store: two parts of one city, another city, and a city
    whose only geometry has no points. *)
Definition boundary_store : Reader Z := {|
  sf_fields := schema ["NAME_1"; "NAME_2"];
  sf_records := [ [VStr "Maharashtra"; VStr "Mumbai City"];
                  [VStr "Maharashtra"; VStr "Pune"];
                  [VStr "Maharashtra"; VStr "Mumbai City"];
                  [VStr "Maharashtra"; VStr "Nowhere"] ];
  sf_shapes := [ {| shapeType := 5; points := [(727, 188); (730, 190); (727, 188)] |};
                 {| shapeType := 5; points := [(738, 185); (739, 186)] |};
                 {| shapeType := 5; points := [(728, 193); (729, 189)] |};
                 {| shapeType := 5; points := [] |} ];
|}.

(** A road store in which a type-matched geometry is not a polyline and
    another has no points. *)
Definition mixed_road_store : Reader Z := {|
  sf_fields := schema ["name"; "highway"];
  sf_records := [ [VStr "A"; VStr "primary"];
                  [VStr "B"; VStr "primary"];
                  [VStr "C"; VStr "residential"];
                  [VStr "D"; VStr "footway"];
                  [VStr "E"; VStr "primary"] ];
  sf_shapes := [ road_a;
                 {| shapeType := 5; points := [(1, 2); (3, 4)] |};
                 polyline [];
                 road_b;
                 road_b ];
|}.

(** A boundary store in which one of the two parts of a city has no
    points. *)
Definition partial_store : Reader Z := {|
  sf_fields := schema ["NAME_1"; "NAME_2"];
  sf_records := [ [VStr "Goa"; VStr "North Goa"]; [VStr "Goa"; VStr "North Goa"] ];
  sf_shapes := [ {| shapeType := 5; points := [(738, 155); (740, 157)] |};
                 {| shapeType := 5; points := [] |} ];
|}.

(** A road store with a numeric field that one record leaves empty. *)
Definition typed_road_store : Reader Z := {|
  sf_fields := schema ["lanes"; "highway"];
  sf_records := [ [VInt 2; VStr "primary"]; [VNone; VStr "primary"] ];
  sf_shapes := [ road_a; road_b ];
|}.

(** A store whose second record lacks the second field. *)
Definition ragged_store : Reader Z := {|
  sf_fields := schema ["NAME_1"; "NAME_2"];
  sf_records := [ [VStr "Maharashtra"; VStr "Pune"]; [VStr "Goa"] ];
  sf_shapes := [ {| shapeType := 5; points := [(738, 185); (739, 186)] |};
                 {| shapeType := 5; points := [(739, 153); (740, 154)] |} ];
|}.

Local Close Scope Z_scope.

(** * The rest of the pipeline: plotting, [process_city] and [main] *)

(** What the pipeline asks of the platform it runs on: [os.path], whether
    [os.makedirs(path, exist_ok=True)] succeeds, and a shapefile behind a
    path ([None] when [shapefile.Reader(path)] raises). *)
Class Platform (C : Type) := {
  os_path_join : string → string → string;
  os_path_dirname : string → string;
  os_path_basename : string → string;
  os_path_exists : string → bool;
  os_makedirs : string → bool;
  shapefile_Reader : string → option (Reader C);
}.

Section process_data.
Context {C : Type}.

(** What can go wrong in the pipeline: an exception of one of the two
    extraction methods (or an [IndexError] of [process_city] itself), the
    [ValueError] of unpacking the transposed points into [x, y], a
    shapefile that does not open, an output directory that cannot be
    made. *)
Inductive failure :=
  | Exn (e : exn)
  | UnpackError (expected got : nat)
  | ShapefileException (path : string)
  | OSError (path : string).

(** [self] *)
Record OSMCityPipeline := {
  base_shapefile_path : string;
  output_dir : string;
}.

(** The dictionary [process_city] returns. *)
Record city_result := {
  res_city_name : string;
  res_bbox : bbox C;
  res_bbbike_url : string;
}.

(** The parsed command line of [main]. *)
Record Args := {
  args_base_shapefile : string;
  args_output_dir : string;
  args_cities : list string;
  args_city_field : string;
  args_road_types : list string;
  args_roads_shapefile : option string;
}.

(** Everything the pipeline does to the outside, one constructor for each
    call; a constructor carries the arguments that vary. *)
Inductive event :=
  | EPrint (m : message C)
      (* a print of _extract_city_boundaries or _extract_road_data *)
  | EMakedirs (path : string)
      (* os.makedirs(output_dir, exist_ok=True) *)
  | EProcessing (city_name : string)
  | EUrl (city_name url : string)
  | EInferred (roads_shapefile_path : string)
  | ERoadsSaved (output_csv : string)
  | ERoadsMissing (roads_shapefile_path : string)
  | ECompleted (city_name : string)
  | EBoundariesSaved (output_file : string)
  | ERoadsMapSaved (output_file : string)
  | EError (city_name : string) (e : failure)
  | EAllProcessed (output_dir : string)
  | PltFigure (width height : nat)
  | PltPlot (x y : list C) (linewidth : string)
  | PltTitle (title : string)
  | PltXlabel (label : string)
  | PltYlabel (label : string)
  | PltGrid
  | PltSavefig (output_file : string) (dpi : nat)
  | PltClose
  | ToCsv (output_csv : string) (df : DataFrame C).

Inductive outcome (A : Type) :=
  | Done (a : A)
  | Fail (f : failure).
Global Arguments Done {A} a.
Global Arguments Fail {A} f.

(** What was done so far and the outcome. *)
Definition P (A : Type) : Type := list event * outcome A.

Definition emit (e : event) : P unit := ([e], Done tt).
Definition fail {A} (f : failure) : P A := ([], Fail f).

(** A call of one of the two extraction methods. *)
Definition call {A} (m : M C A) : P A :=
  (EPrint <$> m.1, match m.2 with Ok a => Done a | Raise e => Fail (Exn e) end).

End process_data.

Global Arguments failure : clear implicits.
Global Arguments city_result : clear implicits.
Global Arguments event : clear implicits.
Global Arguments P : clear implicits.

Global Instance P_ret {C} : MRet (P C) := λ A a, ([], Done a).
Global Instance P_bind {C} : MBind (P C) := λ A B f m,
  match m with
  | (done, Done a) => let '(done', r) := f a in (done ++ done', r)
  | (done, Fail e) => (done, Fail e)
  end.

(** [s.replace(old, new)] for single characters. *)
Fixpoint str_replace (old new : ascii) (s : string) : string :=
  match s with
  | "" => ""
  | String a s' => String (if decide (a = old) then new else a) (str_replace old new s')
  end.

Section process.
Context `{Coord C} `{Pandas C} `{Platform C}.

(** [os.makedirs(output_dir, exist_ok=True)] raises when the directory
    cannot be made, for one when a file has that name. *)
Definition OSMCityPipeline__init__ (base_shapefile_path output_dir : string)
    : P C OSMCityPipeline :=
  (if os_makedirs output_dir then emit (EMakedirs output_dir)
   else fail (OSError output_dir));;
  mret {| base_shapefile_path := base_shapefile_path; output_dir := output_dir |}.

(** [x, y = zip( *shape.points)]: the points being pairs, the zip yields
    two tuples when there is a point and none when there is not. *)
Definition zip_star (pts : list (point C)) : P C (list C * list C) :=
  match pts with
  | [] => fail (UnpackError 2 0)
  | _ => mret (pts.*1, pts.*2)
  end.

(** The loop [for shape in shapes] of both plotting methods: unpack the
    transposed points, then [plt.plot(x, y, 'b', linewidth=...)]. *)
Fixpoint plot_shapes (linewidth : string) (shapes : list (Shape C)) : P C unit :=
  match shapes with
  | [] => mret tt
  | shape :: rest =>
      xy ← zip_star (points shape);
      emit (PltPlot xy.1 xy.2 linewidth);;
      plot_shapes linewidth rest
  end.

Definition _plot_city_boundaries (self : OSMCityPipeline)
    (city_name : string) (city_shapes : list (Shape C)) : P C unit :=
  emit (PltFigure 10 8);;
  plot_shapes "1" city_shapes;;
  emit (PltTitle (city_name +:+ " - Administrative Boundaries"));;
  emit (PltXlabel "Longitude");;
  emit (PltYlabel "Latitude");;
  emit PltGrid;;
  let output_file :=
    os_path_join (output_dir self)
                 (str_replace " " "_" city_name +:+ "_boundaries.png") in
  emit (PltSavefig output_file 300);;
  emit PltClose;;
  emit (EBoundariesSaved output_file).

Definition _plot_city_roads (self : OSMCityPipeline)
    (city_name : string) (road_shapes : list (Shape C)) : P C unit :=
  emit (PltFigure 12 10);;
  plot_shapes "0.8" road_shapes;;
  emit (PltTitle ("Roads in " +:+ city_name));;
  emit (PltXlabel "Longitude");;
  emit (PltYlabel "Latitude");;
  emit PltGrid;;
  let output_file :=
    os_path_join (output_dir self)
                 (str_replace " " "_" city_name +:+ "_roads.png") in
  emit (PltSavefig output_file 300);;
  emit PltClose;;
  emit (ERoadsMapSaved output_file).

(** [shapefile.Reader(path)], the first line of both extraction methods. *)
Definition open_shapefile (path : string) : P C (Reader C) :=
  match shapefile_Reader path with
  | Some sf => mret sf
  | None => fail (ShapefileException path)
  end.

(** [l[1]] *)
Definition second (l : list string) : P C string :=
  match l !! 1 with
  | Some x => mret x
  | None => fail (Exn IndexError)
  end.

Definition process_city (self : OSMCityPipeline) (city_name city_field_name : string)
    (roads_shapefile_path : option string)
    (road_types_of_interest : option (list string)) : P C (city_result C) :=
  emit (EProcessing city_name);;
  let road_types_of_interest :=
    default ["residential"; "primary"; "secondary"; "tertiary"] road_types_of_interest in
  sf ← open_shapefile (base_shapefile_path self);
  boundaries ← call (_extract_city_boundaries sf city_name city_field_name);
  let city_shapes := boundaries.1 in
  let bbox := boundaries.2 in
  let bbbike_url := _generate_bbbike_url bbox in
  emit (EUrl city_name bbbike_url);;
  _plot_city_boundaries self city_name city_shapes;;
  roads_shapefile_path ←
    match roads_shapefile_path with
    | Some path => mret path
    | None =>
        let base_dir := os_path_dirname (base_shapefile_path self) in
        country_code ←
          second (split_on "_" (os_path_basename (base_shapefile_path self)));
        let path :=
          os_path_join base_dir
            (country_code +:+ "_" +:+ country_code +:+ ".20_1+" +:+ city_name
               +:+ "_roads.shp") in
        emit (EInferred path);;
        mret path
    end;
  (if os_path_exists roads_shapefile_path then
     roads_sf ← open_shapefile roads_shapefile_path;
     roads ← call (_extract_road_data roads_sf road_types_of_interest);
     _plot_city_roads self city_name roads.1;;
     let output_csv :=
       os_path_join (output_dir self)
                    (str_replace " " "_" city_name +:+ "_roads.csv") in
     emit (ToCsv output_csv roads.2);;
     emit (ERoadsSaved output_csv)
   else
     emit (ERoadsMissing roads_shapefile_path));;
  emit (ECompleted city_name);;
  mret {| res_city_name := city_name; res_bbox := bbox; res_bbbike_url := bbbike_url |}.

(** [try: pipeline.process_city(...) except Exception as e: print(...)] *)
Definition try_process_city (pipeline : OSMCityPipeline) (args : Args)
    (city_name : string) : P C unit :=
  match process_city pipeline city_name (args_city_field args)
          (args_roads_shapefile args) (Some (args_road_types args)) with
  | (done, Done _) => (done, Done tt)
  | (done, Fail e) => (done ++ [EError city_name e], Done tt)
  end.

(** [for city_name in args.cities: ...] *)
Fixpoint process_cities (pipeline : OSMCityPipeline) (args : Args)
    (cities : list string) : P C unit :=
  match cities with
  | [] => mret tt
  | city_name :: rest =>
      try_process_city pipeline args city_name;;
      process_cities pipeline args rest
  end.

(** [main], from the parsed arguments on.  The pipeline is made outside
    the [try] of the loop. *)
Definition main (args : Args) : P C unit :=
  pipeline ← OSMCityPipeline__init__ (args_base_shapefile args) (args_output_dir args);
  process_cities pipeline args (args_cities args);;
  emit (EAllProcessed (args_output_dir args)).

End process.

(** The plot calls of geometries that all have points: a line for each,
    holding the x and the y coordinates of its points. *)
Definition plots_of {C} (linewidth : string) (shapes : list (Shape C))
    : list (event C) :=
  (λ s, PltPlot (points s).*1 (points s).*2 linewidth) <$> shapes.

(** ** An instance: POSIX paths over a table of shapefiles *)

Definition ends_with_slash (p : string) : bool :=
  match last (String.list_ascii_of_string p) with
  | Some a => bool_decide (a = "/"%char)
  | None => false
  end.

(** [posixpath.join(a, b)] *)
Definition posix_join (a b : string) : string :=
  match b with
  | String "/" _ => b
  | _ => if bool_decide (a = "") || ends_with_slash a then a +:+ b
         else a +:+ "/" +:+ b
  end.

(** [p[i:]] for [i = p.rfind('/') + 1] *)
Fixpoint posix_basename (p : string) : string :=
  match p with
  | "" => ""
  | String a p' =>
      if has_char "/" p' then posix_basename p'
      else if decide (a = "/"%char) then p' else p
  end.

Fixpoint drop_to_slash (l : list ascii) : list ascii :=
  match l with
  | [] => []
  | a :: l' => if decide (a = "/"%char) then l else drop_to_slash l'
  end.

Fixpoint drop_slashes (l : list ascii) : list ascii :=
  match l with
  | [] => []
  | a :: l' => if decide (a = "/"%char) then drop_slashes l' else l
  end.

(** [posixpath.dirname]: the path up to its last slash, without trailing
    slashes unless it is all slashes. *)
Definition posix_dirname (p : string) : string :=
  let head := reverse (drop_to_slash (reverse (String.list_ascii_of_string p))) in
  String.string_of_list_ascii
    (if forallb (λ a, bool_decide (a = "/"%char)) head then head
     else reverse (drop_slashes (reverse head))).

(** A directory [data] with the boundary store and the roads of one city,
    and a directory [roads] with the scenario store. *)
Global Instance posix_platform : Platform Z := {|
  os_path_join := posix_join;
  os_path_dirname := posix_dirname;
  os_path_basename := posix_basename;
  os_path_exists p :=
    bool_decide (p ∈ ["data/gadm36_IND_2.shp"; "data/cities.shp";
                      "data/IND_IND.20_1+Mumbai City_roads.shp";
                      "roads/scenario.shp"]);
  os_makedirs p :=
    negb (bool_decide (p ∈ ["data/gadm36_IND_2.shp"; "data/cities.shp";
                            "data/IND_IND.20_1+Mumbai City_roads.shp";
                            "roads/scenario.shp"]));
  shapefile_Reader p :=
    if decide (p = "data/gadm36_IND_2.shp") then Some boundary_store
    else if decide (p = "data/cities.shp") then Some boundary_store
    else if decide (p = "data/IND_IND.20_1+Mumbai City_roads.shp")
         then Some mixed_road_store
    else if decide (p = "roads/scenario.shp")
         then Some (scenario_store road_a road_b road_c)
    else if decide (p = "data/gadm36_GOA_2.shp") then Some partial_store
    else None;
|}.

Definition india : OSMCityPipeline :=
  {| base_shapefile_path := "data/gadm36_IND_2.shp"; output_dir := "./output" |}.

Definition goa : OSMCityPipeline :=
  {| base_shapefile_path := "data/gadm36_GOA_2.shp"; output_dir := "./output" |}.

Definition cities_only : OSMCityPipeline :=
  {| base_shapefile_path := "data/cities.shp"; output_dir := "./output" |}.

(** * Properties *)

(** Unfold the monad of [M] and compute. *)
Ltac run_M := unfold mbind, M_bind, mret, M_ret, raise, print; simpl.

Section list_facts.
Context `{Coord C}.

Lemma list_index_Some x l i :
  list_index x l = Some i ↔ l !! i = Some x ∧ ∀ j, j < i → l !! j ≠ Some x.
Proof.
  revert i. induction l as [|y l IH]; intros i; simpl.
  - split; [discriminate|]. intros [Hl _]. discriminate.
  - destruct (decide (y = x)) as [->|Hne].
    + split.
      * intros [= <-]. split; [reflexivity|]. intros j Hj. lia.
      * intros [Hl Hfirst]. destruct i as [|i]; [reflexivity|].
        exfalso. apply (Hfirst 0); [lia|reflexivity].
    + destruct (list_index x l) as [k|] eqn:Hk; simpl.
      * split.
        -- intros [= <-]. destruct (proj1 (IH k) eq_refl) as [Hl Hfirst].
           split; [exact Hl|]. intros [|j] Hj; simpl; [congruence|].
           apply Hfirst. lia.
        -- intros [Hl Hfirst]. destruct i as [|i]; simpl in Hl; [congruence|].
           f_equal. symmetry. assert (Some k = Some i) as [= ->]; [|reflexivity].
           apply IH. split; [exact Hl|]. intros j Hj. apply (Hfirst (S j)). lia.
      * split; [discriminate|]. intros [Hl Hfirst].
        destruct i as [|i]; simpl in Hl; [congruence|].
        exfalso. assert (None = Some i) as Habs; [|discriminate].
        apply IH. split; [exact Hl|]. intros j Hj. apply (Hfirst (S j)). lia.
Qed.

Lemma list_index_None x l : list_index x l = None ↔ x ∉ l.
Proof.
  induction l as [|y l IH]; simpl.
  - split; [intros _; apply not_elem_of_nil|reflexivity].
  - destruct (decide (y = x)) as [->|Hne].
    + split; [discriminate|]. intros Hx. exfalso. apply Hx. left.
    + rewrite not_elem_of_cons, <- IH.
      destruct (list_index x l); simpl;
        (split; [try discriminate|try (intros [_ [=]])]);
        [intros _; split; [congruence|reflexivity]|reflexivity].
Qed.

Lemma list_index_lt x l i : list_index x l = Some i → i < length l.
Proof. intros Hi. apply list_index_Some in Hi as [Hl _]. by eapply lookup_lt_Some. Qed.

Lemma list_index_head x l : list_index x (x :: l) = Some 0.
Proof. simpl. by rewrite decide_True. Qed.

Lemma getitem_Some (r : record C) i v : r !! i = Some v → getitem r i = mret v.
Proof. unfold getitem. by intros ->. Qed.

Lemma py_eq_str_true (v : value C) s : py_eq_str v s = true ↔ v = VStr s.
Proof.
  destruct v as [t| | | | | |]; simpl; try (split; discriminate).
  rewrite bool_decide_eq_true. split; [by intros ->|congruence].
Qed.

Lemma py_in_true (v : value C) types :
  py_in v types = true ↔ Exists (λ t, v = VStr t) types.
Proof.
  unfold py_in. induction types as [|t types IH]; simpl.
  - rewrite Exists_nil. split; [discriminate|tauto].
  - rewrite Exists_cons, orb_true_iff, py_eq_str_true, IH. tauto.
Qed.

Lemma py_eq_str_field_is (r : record C) i v s :
  r !! i = Some v → py_eq_str v s = bool_decide (field_is i s r).
Proof.
  intros Hv.
  assert (py_eq_str v s = true ↔ field_is i s r) as Hiff.
  { rewrite py_eq_str_true. unfold field_is. rewrite Hv. split; congruence. }
  destruct (py_eq_str v s); symmetry.
  - apply bool_decide_eq_true, Hiff. reflexivity.
  - apply bool_decide_eq_false. intros Hf. apply Hiff in Hf. discriminate.
Qed.

Lemma py_in_field_in (r : record C) i v types :
  r !! i = Some v → py_in v types = bool_decide (field_in i types r).
Proof.
  intros Hv.
  assert (py_in v types = true ↔ field_in i types r) as Hiff.
  { rewrite py_in_true. unfold field_in, field_is. rewrite Hv.
    split; intros HE; (eapply Exists_impl; [exact HE|]); intros t; simpl; congruence. }
  destruct (py_in v types); symmetry.
  - apply bool_decide_eq_true, Hiff. reflexivity.
  - apply bool_decide_eq_false. intros Hf. apply Hiff in Hf. discriminate.
Qed.

(** A comprehension whose condition never raises is a filter. *)
Lemma shapes_where_filter (cond : record C → M C bool) (P : record C → Prop)
    `{∀ r, Decision (P r)} (pairs : list (record C * Shape C)) :
  Forall (λ p, cond p.1 = mret (bool_decide (P p.1))) pairs →
  shapes_where cond pairs = mret ((filter (λ p, P p.1) pairs).*2).
Proof.
  induction 1 as [|[r s] pairs Hc _ IH]; [reflexivity|].
  simpl in *. rewrite Hc, IH. run_M. rewrite filter_cons. simpl.
  destruct (decide (P r)) as [HP|HP].
  - by rewrite bool_decide_eq_true_2.
  - by rewrite bool_decide_eq_false_2.
Qed.

Lemma pairs_have_field (sf : Reader C) i :
  records_fit sf → i < length (fields_of sf) →
  Forall (λ p, is_Some (p.1 !! i)) (pairs_of sf).
Proof.
  unfold records_fit, pairs_of. intros Hfit Hi.
  generalize (sf_shapes sf). induction Hfit as [|r rs Hr _ IH]; intros [|s ss]; simpl;
    try constructor.
  - simpl. apply lookup_lt_is_Some. lia.
  - apply IH.
Qed.

End list_facts.

Section extremes.
Context `{CoordOrder C}.

Lemma running_min_elem (x : C) rest :
  foldl (λ cur item, if coord_lt item cur then item else cur) x rest ∈ x :: rest.
Proof.
  revert x. induction rest as [|a rest IH]; intros x; simpl; [left|].
  destruct (coord_lt a x).
  - right. apply IH.
  - specialize (IH x). apply elem_of_cons in IH as [->|IH]; [left|right; right; exact IH].
Qed.

Lemma running_max_elem (x : C) rest :
  foldl (λ cur item, if coord_gt item cur then item else cur) x rest ∈ x :: rest.
Proof.
  revert x. induction rest as [|a rest IH]; intros x; simpl; [left|].
  destruct (coord_gt a x).
  - right. apply IH.
  - specialize (IH x). apply elem_of_cons in IH as [->|IH]; [left|right; right; exact IH].
Qed.

(** The running minimum stays below everything seen so far. *)
Lemma running_min_le (seen : list C) x rest :
  (∀ s, s ∈ seen → coord_le x s) →
  ∀ y, y ∈ seen ++ rest →
    coord_le (foldl (λ cur item, if coord_lt item cur then item else cur) x rest) y.
Proof.
  revert seen x. induction rest as [|a rest IH]; intros seen x Hseen y Hy; simpl.
  - rewrite app_nil_r in Hy. by apply Hseen.
  - apply (IH (seen ++ [a])); [|by rewrite <- app_assoc].
    intros s [Hs| ->%list_elem_of_singleton]%elem_of_app; unfold coord_le in *.
    + destruct (coord_lt a x) eqn:Hax; [|by apply Hseen].
      destruct (coord_lt s a) eqn:Hsa; [|reflexivity].
      rewrite <- (Hseen s Hs). symmetry. by apply coord_lt_trans with a.
    + destruct (coord_lt a x) eqn:Hax; [apply coord_lt_irrefl|exact Hax].
Qed.

Lemma running_max_ge (seen : list C) x rest :
  (∀ s, s ∈ seen → coord_le s x) →
  ∀ y, y ∈ seen ++ rest →
    coord_le y (foldl (λ cur item, if coord_gt item cur then item else cur) x rest).
Proof.
  revert seen x. induction rest as [|a rest IH]; intros seen x Hseen y Hy; simpl.
  - rewrite app_nil_r in Hy. by apply Hseen.
  - apply (IH (seen ++ [a])); [|by rewrite <- app_assoc].
    intros s [Hs| ->%list_elem_of_singleton]%elem_of_app; unfold coord_le, coord_gt in *.
    + destruct (coord_lt x a) eqn:Hxa; [|by apply Hseen].
      destruct (coord_lt a s) eqn:Has; [|reflexivity].
      rewrite <- (Hseen s Hs). symmetry. by apply coord_lt_trans with a.
    + destruct (coord_lt x a) eqn:Hxa; [apply coord_lt_irrefl|exact Hxa].
Qed.

Lemma py_min_spec (xs : list C) out m :
  py_min xs = (out, Ok m) → out = [] ∧ m ∈ xs ∧ ∀ y, y ∈ xs → coord_le m y.
Proof.
  destruct xs as [|x rest]; [discriminate|]. intros [= <- <-].
  split; [reflexivity|]. split; [apply running_min_elem|].
  intros y Hy. apply (running_min_le [x]); [|exact Hy].
  intros s ->%list_elem_of_singleton. apply coord_lt_irrefl.
Qed.

Lemma py_max_spec (xs : list C) out m :
  py_max xs = (out, Ok m) → out = [] ∧ m ∈ xs ∧ ∀ y, y ∈ xs → coord_le y m.
Proof.
  destruct xs as [|x rest]; [discriminate|]. intros [= <- <-].
  split; [reflexivity|]. split; [apply running_max_elem|].
  intros y Hy. apply (running_max_ge [x]); [|exact Hy].
  intros s ->%list_elem_of_singleton. apply coord_lt_irrefl.
Qed.

End extremes.

Section boundaries.
Context `{Coord C}.

Lemma M_bind_ret {A B} (a : A) (f : A → M C B) : mret a ≫= f = f a.
Proof. run_M. by destruct (f a). Qed.

(** On a non-empty point list none of the four extremes raises. *)
Lemma extremes_exist (P : list (point C)) :
  P ≠ [] →
  ∃ a b c d, py_min (P.*1) = mret a ∧ py_min (P.*2) = mret b ∧
             py_max (P.*1) = mret c ∧ py_max (P.*2) = mret d.
Proof. destruct P as [|[x y] ps]; [done|]. intros _. by eexists _, _, _, _. Qed.

(** With the field in the schema and records that fit it, the selection
    is a filter of the store and the rest of the method runs on it. *)
Lemma extract_city_boundaries_selects (sf : Reader C) city fld i :
  list_index fld (fields_of sf) = Some i →
  records_fit sf →
  _extract_city_boundaries sf city fld =
    let sel := (filter (λ p, field_is i city p.1) (pairs_of sf)).*2 in
    match sel with
    | [] => raise (ValueError (CityNotFound city fld))
    | _ =>
        min_x ← py_min ((all_points_of sel).*1);
        min_y ← py_min ((all_points_of sel).*2);
        max_x ← py_max ((all_points_of sel).*1);
        max_y ← py_max ((all_points_of sel).*2);
        mret (sel, (min_x, min_y, max_x, max_y))
    end.
Proof.
  intros Hidx Hfit. unfold _extract_city_boundaries. rewrite Hidx, M_bind_ret.
  rewrite (shapes_where_filter _ (field_is i city)).
  - rewrite M_bind_ret. reflexivity.
  - eapply Forall_impl; [apply pairs_have_field; eauto using list_index_lt|].
    intros [r s] [v Hv]; simpl in *.
    rewrite (getitem_Some _ _ _ Hv), M_bind_ret.
    by rewrite (py_eq_str_field_is r i v city Hv).
Qed.

(** What a returned bounding box was computed from. *)
Lemma extract_city_boundaries_Ok (sf : Reader C) city fld out shapes a b c d :
  _extract_city_boundaries sf city fld = (out, Ok (shapes, (a, b, c, d))) →
  all_points_of shapes ≠ [] ∧
  py_min ((all_points_of shapes).*1) = mret a ∧
  py_min ((all_points_of shapes).*2) = mret b ∧
  py_max ((all_points_of shapes).*1) = mret c ∧
  py_max ((all_points_of shapes).*2) = mret d.
Proof.
  unfold _extract_city_boundaries.
  destruct (list_index fld (fields_of sf)) as [i|]; [|discriminate].
  rewrite M_bind_ret.
  destruct (shapes_where _ _) as [out1 [city_shapes|e]]; [|discriminate].
  destruct city_shapes as [|s0 ss]; [run_M; intros [=]|].
  unfold mbind at 1, M_bind at 1. cbv beta iota.
  change (mbind (M:=list) (λ shape, points shape) (s0 :: ss))
    with (all_points_of (s0 :: ss)).
  destruct (all_points_of (s0 :: ss)) as [|[x y] ps] eqn:Hpts; [run_M; intros [=]|].
  run_M. intros [= <- <- <- <- <- <-]. rewrite Hpts. done.
Qed.

End boundaries.

Global Instance tenths_order : CoordOrder Z.
Proof.
  split; simpl.
  - apply Z.ltb_irrefl.
  - intros x y z. rewrite !Z.ltb_lt. lia.
Qed.

(** ** The methods on the example stores *)

Example extract_mumbai :
  _extract_city_boundaries boundary_store "Mumbai City" "NAME_2"
  = ([], Ok ([ {| shapeType := 5; points := [(727, 188); (730, 190); (727, 188)] |};
               {| shapeType := 5; points := [(728, 193); (729, 189)] |} ],
             (727, 188, 730, 193)))%Z.
Proof. reflexivity. Qed.

Example extract_is_case_sensitive :
  _extract_city_boundaries boundary_store "mumbai city" "NAME_2"
  = ([], Raise (ValueError (CityNotFound "mumbai city" "NAME_2"))).
Proof. reflexivity. Qed.

Example extract_missing_field :
  _extract_city_boundaries boundary_store "Pune" "NAME_3"
  = ([MsgFieldNotFound "NAME_3" ["NAME_1"; "NAME_2"]],
     Raise (ValueError (NotInList "NAME_3"))).
Proof. reflexivity. Qed.

Example extract_no_points :
  _extract_city_boundaries boundary_store "Nowhere" "NAME_2"
  = ([], Raise (ValueError EmptyMinMax)).
Proof. reflexivity. Qed.

Example url_of_mumbai :
  _generate_bbbike_url (727, 188, 730, 193)%Z
  = "http://extract.bbbike.org/?sw_lng=72.7&sw_lat=18.8&ne_lng=73.0&ne_lat=19.3".
Proof. reflexivity. Qed.

Example classify_mixed :
  _extract_road_data mixed_road_store ["primary"; "residential"]
  = ([MsgUsing "highway";
      MsgUniqueRoadTypes [VStr "primary"; VStr "primary"; VStr "residential";
                          VStr "footway"; VStr "primary"]],
     Ok ([road_a; {| shapeType := 5; points := [(1, 2); (3, 4)] |}; polyline []; road_b],
         {| columns := ["name"; "highway"; "start_lat"; "start_long"; "end_lat"; "end_long"];
            rows := [ [VStr "A"; VStr "primary";
                       VFloat 727; VFloat 188; VFloat 730; VFloat 193];
                      [VStr "E"; VStr "primary";
                       VFloat 729; VFloat 191; VFloat 729; VFloat 191] ] |}))%Z.
Proof. reflexivity. Qed.

Example classify_typed :
  _extract_road_data typed_road_store ["primary"]
  = ([MsgUsing "highway"; MsgUniqueRoadTypes [VStr "primary"; VStr "primary"]],
     Ok ([road_a; road_b],
         {| columns := ["lanes"; "highway"; "start_lat"; "start_long"; "end_lat"; "end_long"];
            rows := [ [VFloat 20; VStr "primary";
                       VFloat 727; VFloat 188; VFloat 730; VFloat 193];
                      [VNaN; VStr "primary";
                       VFloat 729; VFloat 191; VFloat 729; VFloat 191] ] |}))%Z.
Proof. reflexivity. Qed.

Example main_output_dir_is_a_file :
  main {| args_base_shapefile := "data/gadm36_IND_2.shp";
          args_output_dir := "data/cities.shp";
          args_cities := ["Pune"];
          args_city_field := "NAME_2";
          args_road_types := ["primary"];
          args_roads_shapefile := None |}
  = ([], Fail (OSError "data/cities.shp")).
Proof. reflexivity. Qed.

Example classify_empty_schema :
  _extract_road_data
    ({| sf_fields := schema []; sf_records := []; sf_shapes := [] |} : Reader Z)
    ["primary"]
  = ([MsgNoRoadTypeField []; MsgFallback], Raise IndexError).
Proof. reflexivity. Qed.

(** ** The boundary extractor *)

Section boundary_claims.
Context `{CoordOrder C}.

(** The extremes of a point list bound every point and are attained. *)
Lemma extremes_bound (P : list (point C)) a b c d :
  py_min (P.*1) = mret a → py_min (P.*2) = mret b →
  py_max (P.*1) = mret c → py_max (P.*2) = mret d →
  (∀ x y, (x, y) ∈ P →
     coord_le a x ∧ coord_le x c ∧ coord_le b y ∧ coord_le y d) ∧
  (∃ p, p ∈ P ∧ p.1 = a) ∧ (∃ p, p ∈ P ∧ p.2 = b) ∧
  (∃ p, p ∈ P ∧ p.1 = c) ∧ (∃ p, p ∈ P ∧ p.2 = d).
Proof.
  intros (_ & Ha & Hla)%py_min_spec (_ & Hb & Hlb)%py_min_spec
         (_ & Hc & Hlc)%py_max_spec (_ & Hd & Hld)%py_max_spec.
  split.
  - intros x y Hxy. repeat split.
    + apply Hla. by apply (list_elem_of_fmap_2 fst) in Hxy.
    + apply Hlc. by apply (list_elem_of_fmap_2 fst) in Hxy.
    + apply Hlb. by apply (list_elem_of_fmap_2 snd) in Hxy.
    + apply Hld. by apply (list_elem_of_fmap_2 snd) in Hxy.
  - apply list_elem_of_fmap in Ha as (pa & -> & Hpa).
    apply list_elem_of_fmap in Hb as (pb & -> & Hpb).
    apply list_elem_of_fmap in Hc as (pc & -> & Hpc).
    apply list_elem_of_fmap in Hd as (pd & -> & Hpd).
    repeat split; eauto.
Qed.

(** C1. Whenever the selection of geometries and its flattened point list
    are both non-empty, boundary extraction returns the selection with
    the box (min_x, min_y, max_x, max_y) of its points: every selected
    point lies within the box on both axes, each of the four extremes is
    a coordinate of some selected point, and any extraction whose
    selected points are the same set (with other multiplicities or in
    another order) yields numerically the same box. *)
Theorem bbox_tightly_bounds_selection (sf : Reader C) city fld i :
  list_index fld (fields_of sf) = Some i →
  records_fit sf →
  let sel := (filter (λ p, field_is i city p.1) (pairs_of sf)).*2 in
  sel ≠ [] →
  all_points_of sel ≠ [] →
  ∃ min_x min_y max_x max_y,
    _extract_city_boundaries sf city fld
      = ([], Ok (sel, (min_x, min_y, max_x, max_y))) ∧
    (∀ x y, (x, y) ∈ all_points_of sel →
       coord_le min_x x ∧ coord_le x max_x ∧ coord_le min_y y ∧ coord_le y max_y) ∧
    (∃ p, p ∈ all_points_of sel ∧ p.1 = min_x) ∧
    (∃ p, p ∈ all_points_of sel ∧ p.2 = min_y) ∧
    (∃ p, p ∈ all_points_of sel ∧ p.1 = max_x) ∧
    (∃ p, p ∈ all_points_of sel ∧ p.2 = max_y) ∧
    (∀ sf' city' fld' out' shapes' min_x' min_y' max_x' max_y',
       _extract_city_boundaries sf' city' fld'
         = (out', Ok (shapes', (min_x', min_y', max_x', max_y'))) →
       (∀ p, p ∈ all_points_of shapes' ↔ p ∈ all_points_of sel) →
       coord_eqv min_x' min_x ∧ coord_eqv min_y' min_y ∧
       coord_eqv max_x' max_x ∧ coord_eqv max_y' max_y).
Proof.
  intros Hidx Hfit sel Hsel Hpts.
  pose proof (extract_city_boundaries_selects sf city fld i Hidx Hfit) as Hrun.
  fold sel in Hrun. cbv zeta in Hrun.
  destruct (extremes_exist _ Hpts) as (a & b & c & d & Ha & Hb & Hc & Hd).
  rewrite Ha, Hb, Hc, Hd, !M_bind_ret in Hrun.
  destruct sel as [|s0 ss] eqn:Esel; [done|].
  exists a, b, c, d. split; [exact Hrun|].
  destruct (extremes_bound _ a b c d Ha Hb Hc Hd)
    as (Hbound & Hta & Htb & Htc & Htd).
  repeat (split; [assumption|]).
  intros sf' city' fld' out' shapes' a' b' c' d' Hrun' Hsame.
  apply extract_city_boundaries_Ok in Hrun' as (_ & Ha' & Hb' & Hc' & Hd').
  destruct (extremes_bound _ a' b' c' d' Ha' Hb' Hc' Hd')
    as (Hbound' & (pa' & Hpa' & <-) & (pb' & Hpb' & <-)
        & (pc' & Hpc' & <-) & (pd' & Hpd' & <-)).
  destruct Hta as (pa & Hpa & <-), Htb as (pb & Hpb & <-),
           Htc as (pc & Hpc & <-), Htd as (pd & Hpd & <-).
  assert (∀ p, p ∈ all_points_of shapes' →
            coord_le pa.1 p.1 ∧ coord_le p.1 pc.1 ∧
            coord_le pb.2 p.2 ∧ coord_le p.2 pd.2) as Hin.
  { intros [x y] Hp. apply Hbound, Hsame, Hp. }
  assert (∀ p, p ∈ all_points_of (s0 :: ss) →
            coord_le pa'.1 p.1 ∧ coord_le p.1 pc'.1 ∧
            coord_le pb'.2 p.2 ∧ coord_le p.2 pd'.2) as Hin'.
  { intros [x y] Hp. apply Hbound', Hsame, Hp. }
  unfold coord_eqv. repeat split.
  - apply (Hin' pa Hpa).
  - apply (Hin pa' Hpa').
  - apply (Hin' pb Hpb).
  - apply (Hin pb' Hpb').
  - apply (Hin pc' Hpc').
  - apply (Hin' pc Hpc).
  - apply (Hin pd' Hpd').
  - apply (Hin' pd Hpd).
Qed.

End boundary_claims.

Lemma bbox_tightly_bounds_selection_witness :
  let sel := (filter (λ p, field_is 1 "Mumbai City" p.1) (pairs_of boundary_store)).*2 in
  list_index "NAME_2" (fields_of boundary_store) = Some 1 ∧
  records_fit boundary_store ∧ sel ≠ [] ∧ all_points_of sel ≠ [] ∧
  ∃ min_x min_y max_x max_y,
    _extract_city_boundaries boundary_store "Mumbai City" "NAME_2"
      = ([], Ok (sel, (min_x, min_y, max_x, max_y))) ∧
    (∀ x y, (x, y) ∈ all_points_of sel →
       coord_le min_x x ∧ coord_le x max_x ∧ coord_le min_y y ∧ coord_le y max_y) ∧
    (∃ p, p ∈ all_points_of sel ∧ p.1 = min_x) ∧
    (∃ p, p ∈ all_points_of sel ∧ p.2 = min_y) ∧
    (∃ p, p ∈ all_points_of sel ∧ p.1 = max_x) ∧
    (∃ p, p ∈ all_points_of sel ∧ p.2 = max_y).
Proof.
  intros sel.
  assert (list_index "NAME_2" (fields_of boundary_store) = Some 1) as Hidx
    by reflexivity.
  assert (records_fit boundary_store) as Hfit by repeat constructor.
  assert (sel ≠ []) as Hsel by (vm_compute; discriminate).
  assert (all_points_of sel ≠ []) as Hpts by (vm_compute; discriminate).
  repeat (split; [assumption|]).
  destruct (bbox_tightly_bounds_selection boundary_store "Mumbai City" "NAME_2" 1
              Hidx Hfit Hsel Hpts)
    as (a & b & c & d & Hrun & Hbound & Ha & Hb & Hc & Hd & _).
  exists a, b, c, d. repeat (split; [assumption|]). assumption.
Defined.

Section selection_claims.
Context `{Coord C}.

(** C5. When the field is in the schema but no record of the store has
    the target value in it, boundary extraction raises the
    city-not-found error and returns no bounding box; the error differs
    from the one raised, after a diagnostic line, when the field is not
    in the schema. *)
Theorem no_match_raises_city_not_found (sf : Reader C) city fld i :
  list_index fld (fields_of sf) = Some i →
  records_fit sf →
  (∀ r s, (r, s) ∈ pairs_of sf → r !! i ≠ Some (VStr city)) →
  _extract_city_boundaries sf city fld
    = ([], Raise (ValueError (CityNotFound city fld))) ∧
  (∀ out shapes box, _extract_city_boundaries sf city fld ≠ (out, Ok (shapes, box))) ∧
  (∀ sf' : Reader C, fld ∉ fields_of sf' →
     _extract_city_boundaries sf' city fld
       = ([MsgFieldNotFound fld (fields_of sf')], Raise (ValueError (NotInList fld))) ∧
     _extract_city_boundaries sf' city fld ≠ _extract_city_boundaries sf city fld).
Proof.
  intros Hidx Hfit Hnone.
  assert (_extract_city_boundaries sf city fld
            = ([], Raise (ValueError (CityNotFound city fld)))) as Hrun.
  { rewrite (extract_city_boundaries_selects sf city fld i Hidx Hfit). cbv zeta.
    destruct (filter _ _) as [|[r s] l] eqn:Hsel; [reflexivity|]. exfalso.
    assert ((r, s) ∈ filter (λ p, field_is i city p.1) (pairs_of sf)) as Hin
      by (rewrite Hsel; left).
    apply list_elem_of_filter in Hin as [Hr Hin]. exact (Hnone r s Hin Hr). }
  split; [exact Hrun|]. split.
  - intros out shapes box. rewrite Hrun. discriminate.
  - intros sf' Hnot%list_index_None. unfold _extract_city_boundaries at 1 2.
    rewrite Hnot, Hrun. split; [reflexivity|discriminate].
Qed.

Lemma snd_zip_sublist {A B} (l : list A) (k : list B) : (zip l k).*2 `sublist_of` k.
Proof.
  revert k. induction l as [|x l IH]; intros [|y k]; simpl;
    try apply sublist_nil_l.
  apply sublist_skip, IH.
Qed.

(** C7. The geometries boundary extraction selects, and returns whenever
    it returns, are those of the store's (record, geometry) pairs whose
    record holds exactly the target string in the resolved field: a
    geometry is selected if and only if it comes from such a pair, the
    selection keeps the store's order and one entry for every matching
    pair. *)
Theorem selection_is_exact_match_filter (sf : Reader C) city fld i :
  list_index fld (fields_of sf) = Some i →
  records_fit sf →
  let sel := (filter (λ p, field_is i city p.1) (pairs_of sf)).*2 in
  (∀ out shapes box,
     _extract_city_boundaries sf city fld = (out, Ok (shapes, box)) → shapes = sel) ∧
  (all_points_of sel ≠ [] →
     ∃ box, _extract_city_boundaries sf city fld = ([], Ok (sel, box))) ∧
  (∀ s, s ∈ sel ↔ ∃ r, (r, s) ∈ pairs_of sf ∧ r !! i = Some (VStr city)) ∧
  sel `sublist_of` sf_shapes sf ∧
  length sel = length (filter (λ p, p.1 !! i = Some (VStr city)) (pairs_of sf)).
Proof.
  intros Hidx Hfit sel.
  pose proof (extract_city_boundaries_selects sf city fld i Hidx Hfit) as Hrun.
  fold sel in Hrun. cbv zeta in Hrun.
  split; [|split; [|split; [|split]]].
  - intros out shapes box. rewrite Hrun.
    destruct sel as [|s0 ss]; [intros [=]|].
    destruct (all_points_of (s0 :: ss)) as [|[x y] ps]; [intros [=]|].
    run_M. by intros [= _ <- _].
  - intros Hpts.
    destruct (extremes_exist _ Hpts) as (a & b & c & d & Ha & Hb & Hc & Hd).
    rewrite Ha, Hb, Hc, Hd, !M_bind_ret in Hrun.
    exists (a, b, c, d). rewrite Hrun.
    destruct sel; [by destruct Hpts|reflexivity].
  - intros s. unfold sel. rewrite list_elem_of_fmap. split.
    + intros ([r s'] & -> & [Hr Hin]%list_elem_of_filter). by exists r.
    + intros (r & Hin & Hr). exists (r, s). split; [reflexivity|].
      by apply list_elem_of_filter.
  - transitivity ((pairs_of sf).*2); [|apply snd_zip_sublist].
    unfold sel. apply fmap_sublist, sublist_filter.
  - unfold sel. by rewrite length_fmap.
Qed.

(** C9. When the selection of matching geometries is non-empty but they
    have no points at all, boundary extraction raises the error of [min]
    on an empty sequence and returns no bounding box. *)
Theorem selection_without_points_raises (sf : Reader C) city fld i :
  list_index fld (fields_of sf) = Some i →
  records_fit sf →
  let sel := (filter (λ p, field_is i city p.1) (pairs_of sf)).*2 in
  sel ≠ [] →
  all_points_of sel = [] →
  _extract_city_boundaries sf city fld = ([], Raise (ValueError EmptyMinMax)) ∧
  (∀ out shapes box, _extract_city_boundaries sf city fld ≠ (out, Ok (shapes, box))).
Proof.
  intros Hidx Hfit sel Hsel Hpts.
  assert (_extract_city_boundaries sf city fld = ([], Raise (ValueError EmptyMinMax)))
    as Hrun.
  { rewrite (extract_city_boundaries_selects sf city fld i Hidx Hfit).
    fold sel. cbv zeta. rewrite Hpts. by destruct sel. }
  split; [exact Hrun|]. intros out shapes box. rewrite Hrun. discriminate.
Qed.

End selection_claims.

Lemma no_match_raises_city_not_found_witness :
  list_index "NAME_2" (fields_of boundary_store) = Some 1 ∧
  records_fit boundary_store ∧
  (∀ r s, (r, s) ∈ pairs_of boundary_store → r !! 1 ≠ Some (VStr "mumbai city")) ∧
  _extract_city_boundaries boundary_store "mumbai city" "NAME_2"
    = ([], Raise (ValueError (CityNotFound "mumbai city" "NAME_2"))) ∧
  (∀ out shapes box,
     _extract_city_boundaries boundary_store "mumbai city" "NAME_2"
       ≠ (out, Ok (shapes, box))).
Proof.
  assert (list_index "NAME_2" (fields_of boundary_store) = Some 1) as Hidx
    by reflexivity.
  assert (records_fit boundary_store) as Hfit by repeat constructor.
  assert (∀ r s, (r, s) ∈ pairs_of boundary_store →
            r !! 1 ≠ Some (VStr "mumbai city")) as Hnone.
  { intros r s Hin. vm_compute in Hin.
    repeat (apply elem_of_cons in Hin as [[= -> ->]|Hin]; [discriminate|]).
    by apply elem_of_nil in Hin. }
  repeat (split; [assumption|]).
  destruct (no_match_raises_city_not_found boundary_store "mumbai city" "NAME_2" 1
              Hidx Hfit Hnone) as (Hrun & Hno & _).
  split; assumption.
Defined.

Lemma selection_is_exact_match_filter_witness :
  let sel := (filter (λ p, field_is 1 "Mumbai City" p.1) (pairs_of boundary_store)).*2 in
  list_index "NAME_2" (fields_of boundary_store) = Some 1 ∧
  records_fit boundary_store ∧
  (∀ out shapes box,
     _extract_city_boundaries boundary_store "Mumbai City" "NAME_2"
       = (out, Ok (shapes, box)) → shapes = sel) ∧
  (all_points_of sel ≠ [] →
     ∃ box, _extract_city_boundaries boundary_store "Mumbai City" "NAME_2"
              = ([], Ok (sel, box))) ∧
  sel `sublist_of` sf_shapes boundary_store.
Proof.
  intros sel.
  assert (list_index "NAME_2" (fields_of boundary_store) = Some 1) as Hidx
    by reflexivity.
  assert (records_fit boundary_store) as Hfit by repeat constructor.
  repeat (split; [assumption|]).
  destruct (selection_is_exact_match_filter boundary_store "Mumbai City" "NAME_2" 1
              Hidx Hfit) as (Hret & Hruns & _ & Hsub & _).
  repeat (split; [assumption|]). assumption.
Defined.

Lemma selection_without_points_raises_witness :
  let sel := (filter (λ p, field_is 1 "Nowhere" p.1) (pairs_of boundary_store)).*2 in
  list_index "NAME_2" (fields_of boundary_store) = Some 1 ∧
  records_fit boundary_store ∧ sel ≠ [] ∧ all_points_of sel = [] ∧
  _extract_city_boundaries boundary_store "Nowhere" "NAME_2"
    = ([], Raise (ValueError EmptyMinMax)).
Proof.
  intros sel.
  assert (list_index "NAME_2" (fields_of boundary_store) = Some 1) as Hidx
    by reflexivity.
  assert (records_fit boundary_store) as Hfit by repeat constructor.
  assert (sel ≠ []) as Hsel by (vm_compute; discriminate).
  assert (all_points_of sel = []) as Hpts by reflexivity.
  repeat (split; [assumption|]).
  apply (selection_without_points_raises boundary_store "Nowhere" "NAME_2" 1
           Hidx Hfit Hsel Hpts).
Defined.

(** ** The URL formatter *)

Lemma split_on_piece sep v t :
  has_char sep v = false →
  split_on sep (v +:+ String sep t) = v :: split_on sep t.
Proof.
  induction v as [|a v IH]; simpl; intros Hv.
  - by rewrite decide_True.
  - apply orb_false_iff in Hv as [Ha%bool_decide_eq_false Hv].
    rewrite decide_False by done. by rewrite IH.
Qed.

Lemma split_on_whole sep v : has_char sep v = false → split_on sep v = [v].
Proof.
  induction v as [|a v IH]; simpl; intros Hv; [reflexivity|].
  apply orb_false_iff in Hv as [Ha%bool_decide_eq_false Hv].
  rewrite decide_False by done. by rewrite IH.
Qed.

Section url_claims.
Context `{Coord C}.

(** C6. The URL is the fixed text [http://extract.bbbike.org/?] followed
    by the parameters sw_lng, sw_lat, ne_lng, ne_lat, in this order,
    carrying the texts of min_x, min_y, max_x, max_y; when these texts
    hold no ampersand the four parameters read back from the URL are
    these texts, and when each text reads back as its number the URL
    reads back as the bounding box.  For numbers that print as 72.7,
    18.8, 73.0 and 19.3 the query string is
    [?sw_lng=72.7&sw_lat=18.8&ne_lng=73.0&ne_lat=19.3]. *)
Theorem format_url_round_trip (float_of_str : string → option C)
    (min_x min_y max_x max_y : C) :
  let url := _generate_bbbike_url (min_x, min_y, max_x, max_y) in
  Forall (λ x, has_char "&" (coord_str x) = false) [min_x; min_y; max_x; max_y] →
  Forall (λ x, float_of_str (coord_str x) = Some x) [min_x; min_y; max_x; max_y] →
  url = "http" +:+ "://" +:+ "extract.bbbike.org" +:+ "/"
          +:+ "?sw_lng=" +:+ coord_str min_x +:+ "&sw_lat=" +:+ coord_str min_y
          +:+ "&ne_lng=" +:+ coord_str max_x +:+ "&ne_lat=" +:+ coord_str max_y ∧
  query_params url = [("sw_lng", coord_str min_x); ("sw_lat", coord_str min_y);
                      ("ne_lng", coord_str max_x); ("ne_lat", coord_str max_y)] ∧
  bbox_of_url float_of_str url = Some (min_x, min_y, max_x, max_y) ∧
  (coord_str min_x = "72.7" → coord_str min_y = "18.8" →
   coord_str max_x = "73.0" → coord_str max_y = "19.3" →
   query_string url = "?sw_lng=72.7&sw_lat=18.8&ne_lng=73.0&ne_lat=19.3").
Proof.
  intros url Hamp Hread.
  apply Forall_cons in Hamp as [Ha Hamp]. apply Forall_cons in Hamp as [Hb Hamp].
  apply Forall_cons in Hamp as [Hc Hamp]. apply Forall_cons in Hamp as [Hd _].
  apply Forall_cons in Hread as [Hra Hread]. apply Forall_cons in Hread as [Hrb Hread].
  apply Forall_cons in Hread as [Hrc Hread]. apply Forall_cons in Hread as [Hrd _].
  assert (query_params url
          = [("sw_lng", coord_str min_x); ("sw_lat", coord_str min_y);
             ("ne_lng", coord_str max_x); ("ne_lat", coord_str max_y)]) as Hparams.
  { assert (query_string url
            = String "?" (("sw_lng=" +:+ coord_str min_x) +:+ String "&"
                (("sw_lat=" +:+ coord_str min_y) +:+ String "&"
                  (("ne_lng=" +:+ coord_str max_x) +:+ String "&"
                    ("ne_lat=" +:+ coord_str max_y))))) as Hq by reflexivity.
    unfold query_params. rewrite Hq.
    rewrite (split_on_piece "&" ("sw_lng=" +:+ coord_str min_x)) by exact Ha.
    rewrite (split_on_piece "&" ("sw_lat=" +:+ coord_str min_y)) by exact Hb.
    rewrite (split_on_piece "&" ("ne_lng=" +:+ coord_str max_x)) by exact Hc.
    rewrite (split_on_whole "&" ("ne_lat=" +:+ coord_str max_y)) by exact Hd.
    reflexivity. }
  split; [reflexivity|]. split; [exact Hparams|]. split.
  - unfold bbox_of_url. rewrite Hparams.
    set (ps := [("sw_lng", coord_str min_x); ("sw_lat", coord_str min_y);
                ("ne_lng", coord_str max_x); ("ne_lat", coord_str max_y)]).
    assert (param "sw_lng" ps = Some (coord_str min_x)) as -> by reflexivity.
    assert (param "sw_lat" ps = Some (coord_str min_y)) as -> by reflexivity.
    assert (param "ne_lng" ps = Some (coord_str max_x)) as -> by reflexivity.
    assert (param "ne_lat" ps = Some (coord_str max_y)) as -> by reflexivity.
    simpl. rewrite Hra. simpl. rewrite Hrb. simpl. rewrite Hrc. simpl.
    rewrite Hrd. reflexivity.
  - intros Ea Eb Ec Ed. unfold url, _generate_bbbike_url.
    rewrite Ea, Eb, Ec, Ed. reflexivity.
Qed.

End url_claims.

Lemma format_url_round_trip_witness :
  let url := _generate_bbbike_url (727, 188, 730, 193)%Z in
  Forall (λ x, has_char "&" (coord_str x) = false) [727; 188; 730; 193]%Z ∧
  Forall (λ x, tenths_of_str (coord_str x) = Some x) [727; 188; 730; 193]%Z ∧
  query_params url = [("sw_lng", "72.7"); ("sw_lat", "18.8");
                      ("ne_lng", "73.0"); ("ne_lat", "19.3")] ∧
  bbox_of_url tenths_of_str url = Some (727, 188, 730, 193)%Z ∧
  query_string url = "?sw_lng=72.7&sw_lat=18.8&ne_lng=73.0&ne_lat=19.3".
Proof.
  intros url.
  assert (Forall (λ x, has_char "&" (coord_str x) = false) [727; 188; 730; 193]%Z)
    as Hamp by (repeat constructor).
  assert (Forall (λ x, tenths_of_str (coord_str x) = Some x) [727; 188; 730; 193]%Z)
    as Hread by (repeat constructor).
  repeat (split; [assumption|]).
  destruct (format_url_round_trip tenths_of_str 727%Z 188%Z 730%Z 193%Z Hamp Hread)
    as (_ & Hparams & Hbox & Hquery).
  split; [exact Hparams|]. split; [exact Hbox|].
  apply Hquery; reflexivity.
Defined.

(** ** The road classifier *)

Section classifier.
Context `{Coord C} `{Pandas C}.

Lemma find_candidate_first candidates fields before c after :
  candidates = before ++ c :: after →
  (∀ c', c' ∈ before → c' ∉ fields) →
  c ∈ fields →
  find_candidate candidates fields = Some c.
Proof.
  intros -> Hbefore Hc. induction before as [|b before IH]; simpl.
  - by rewrite bool_decide_eq_true_2.
  - rewrite bool_decide_eq_false_2 by (apply Hbefore; left).
    apply IH. intros c' Hc'. apply Hbefore. by right.
Qed.

Lemma find_candidate_None candidates fields :
  (∀ c, c ∈ candidates → c ∉ fields) → find_candidate candidates fields = None.
Proof.
  induction candidates as [|c candidates IH]; intros Hnone; simpl; [reflexivity|].
  rewrite bool_decide_eq_false_2 by (apply Hnone; left).
  apply IH. intros c' Hc'. apply Hnone. by right.
Qed.

Lemma find_candidate_elem candidates fields c :
  find_candidate candidates fields = Some c → c ∈ fields.
Proof.
  induction candidates as [|c' candidates IH]; simpl; [discriminate|].
  destruct (bool_decide (c' ∈ fields)) eqn:Hc'; [|exact IH].
  intros [= <-]. by apply bool_decide_eq_true in Hc'.
Qed.

Lemma list_index_elem x l : x ∈ l → ∃ i, list_index x l = Some i.
Proof.
  intros Hx. destruct (list_index x l) as [i|] eqn:Hi; [by exists i|].
  by apply list_index_None in Hi.
Qed.

(** The index the resolution returns is a position of the schema. *)
Lemma road_type_index_of_lt candidates fields out i :
  road_type_index_of (C:=C) candidates fields = (out, Ok i) → i < length fields.
Proof.
  unfold road_type_index_of.
  destruct (find_candidate candidates fields) as [c|].
  - rewrite M_bind_ret. destruct (list_index c fields) as [k|] eqn:Hk; [|intros [=]].
    run_M. intros [= _ <-]. by apply list_index_lt in Hk.
  - destruct fields as [|f0 fields]; [intros [=]|].
    run_M. rewrite decide_True by done. run_M. intros [= _ <-]. simpl. lia.
Qed.

Lemma mapM_getitem (records : list (record C)) i :
  Forall (λ r, is_Some (r !! i)) records →
  ∃ column, mapM (λ r, getitem r i) records = mret column.
Proof.
  induction 1 as [|r records [v Hv] _ [column IH]]; simpl.
  - by exists [].
  - exists (v :: column). by rewrite (getitem_Some _ _ _ Hv), M_bind_ret, IH, M_bind_ret.
Qed.

Lemma road_row_eligible (r : record C) (s : Shape C) first rest :
  points s = first :: rest →
  r ++ [VFloat first.1; VFloat first.2;
        VFloat (default first (last (points s))).1;
        VFloat (default first (last (points s))).2] = road_row (r, s).
Proof.
  intros Hpts. unfold road_row. simpl. rewrite Hpts. simpl head.
  destruct (last (first :: rest)) as [final|] eqn:Hlast; [reflexivity|].
  by apply last_None in Hlast.
Qed.

(** The loop appends the rows of the eligible pairs, in order. *)
Lemma road_data_loop_rows i types (pairs : list (record C * Shape C)) road_data :
  Forall (λ p, is_Some (p.1 !! i)) pairs →
  road_data_loop i types pairs road_data
    = mret (road_data ++ (road_row <$> filter (row_eligible i types) pairs)).
Proof.
  intros Hfit. revert road_data.
  induction Hfit as [|[r s] pairs [v Hv] _ IH]; intros road_data; simpl.
  - by rewrite app_nil_r.
  - simpl in Hv. rewrite (getitem_Some _ _ _ Hv), M_bind_ret.
    rewrite (py_in_field_in r i v types Hv), filter_cons.
    destruct (decide (field_in i types r)) as [Hin|Hin].
    + rewrite bool_decide_eq_true_2 by done. simpl negb. cbv iota.
      destruct (Z.eqb_spec (shapeType s) 3) as [Hpoly|Hpoly].
      * destruct (points s) as [|[x0 y0] rest] eqn:Hpts.
        -- rewrite decide_False; [apply IH|]. unfold row_eligible. simpl.
           rewrite Hpts. tauto.
        -- rewrite decide_True by (unfold row_eligible; simpl; by rewrite Hpts).
           rewrite <- Hpts. rewrite fmap_cons, <- (road_row_eligible r s (x0, y0) rest Hpts).
           destruct (last (points s)) as [[x1 y1]|]; simpl;
             rewrite IH, <- app_assoc; reflexivity.
      * rewrite decide_False; [apply IH|]. unfold row_eligible. simpl. tauto.
    + rewrite bool_decide_eq_false_2 by done. simpl negb. cbv iota.
      rewrite decide_False; [apply IH|]. unfold row_eligible. simpl. tauto.
Qed.

Lemma pd_cells_length width (data : list (list (value C))) :
  length (pd_cells width data) = length data.
Proof. unfold pd_cells. by rewrite length_fmap, length_seq. Qed.

Lemma lookup_all {A} (d : A) (l : list A) :
  (λ k, default d (l !! k)) <$> seq 0 (length l) = l.
Proof.
  apply list_eq. intros k. rewrite list_lookup_fmap.
  destruct (l !! k) as [x|] eqn:Hk.
  - rewrite (lookup_seq_lt _ _ k) by (by eapply lookup_lt_Some). simpl. by rewrite Hk.
  - rewrite lookup_seq_ge; [reflexivity|]. by apply lookup_ge_None.
Qed.



(** A table whose rows all have one cell per column holds these rows,
    column by column converted. *)
Lemma pd_DataFrame_fit (data : list (list (value C))) cols :
  Forall (λ row, length row = length cols) data →
  pd_DataFrame data cols = mret {| columns := cols; rows := pd_cells (length cols) data |}.
Proof.
  intros Hfit. destruct data as [|row0 data]; [reflexivity|].
  unfold pd_DataFrame.
  assert (max_list (length <$> row0 :: data) = length cols) as ->.
  { remember (row0 :: data) as rows_ eqn:E. assert (rows_ ≠ []) as Hne by (by subst).
    clear E. induction Hfit as [|row rows' Hrow Hrows IH]; [done|]. simpl.
    destruct rows' as [|row' rows'']; simpl; [lia|].
    rewrite Hrow. simpl in IH. rewrite IH by done. lia. }
  rewrite decide_True by done. do 3 f_equal.
  apply list_eq. intros k. rewrite list_lookup_fmap.
  destruct (_ !! k) as [row|] eqn:Hk; [|reflexivity]. simpl.
  rewrite Forall_forall in Hfit. rewrite (Hfit row).
  - by rewrite Nat.sub_diag, app_nil_r.
  - by eapply list_elem_of_lookup_2.
Qed.

End classifier.

Section classifier_run.
Context `{Coord C} `{Pandas C}.

Lemma pairs_fit (sf : Reader C) :
  records_fit sf → Forall (λ p, length p.1 = length (fields_of sf)) (pairs_of sf).
Proof.
  unfold records_fit, pairs_of. intros Hfit. generalize (sf_shapes sf).
  induction Hfit as [|r rs Hr _ IH]; intros [|s ss]; simpl; try constructor.
  - exact Hr.
  - apply IH.
Qed.

(** The row of a geometry with points: fields, first point, last point. *)
Lemma road_row_points (p : record C * Shape C) :
  points p.2 ≠ [] →
  ∃ first final,
    head (points p.2) = Some first ∧ last (points p.2) = Some final ∧
    road_row p = p.1 ++ [VFloat first.1; VFloat first.2; VFloat final.1; VFloat final.2].
Proof.
  intros Hpts. unfold road_row.
  destruct (points p.2) as [|first rest] eqn:E; [done|].
  destruct (last (first :: rest)) as [final|] eqn:Hlast.
  - by exists first, final.
  - by apply last_None in Hlast.
Qed.

(** On a non-empty schema the field resolution returns a position. *)
Lemma road_type_index_of_runs candidates fields :
  fields ≠ [] →
  ∃ out i, road_type_index_of (C:=C) candidates fields = (out, Ok i).
Proof.
  intros Hne. unfold road_type_index_of.
  destruct (find_candidate candidates fields) as [c|] eqn:Hc.
  - apply find_candidate_elem, list_index_elem in Hc as [i Hi].
    rewrite M_bind_ret, Hi. by eexists _, _.
  - destruct fields as [|f0 fields]; [done|].
    run_M. rewrite decide_True by done. by eexists _, _.
Qed.

(** The rows of the eligible pairs have one value per column. *)
Lemma road_rows_fit (sf : Reader C) i types :
  records_fit sf →
  Forall (λ row, length row
                 = length (fields_of sf ++ ["start_lat"; "start_long"; "end_lat"; "end_long"]))
         (road_row <$> filter (row_eligible i types) (pairs_of sf)).
Proof.
  intros Hfit. apply Forall_fmap, Forall_forall. intros p [Hel Hp]%list_elem_of_filter.
  destruct Hel as (_ & _ & Hpts). unfold compose.
  destruct (road_row_points p Hpts) as (first & final & _ & _ & ->).
  pose proof (pairs_fit sf Hfit) as Hlen. rewrite Forall_forall in Hlen.
  rewrite !length_app. f_equal. apply (Hlen p Hp).
Qed.


(** A run of the classifier on a store with a non-empty schema that its
    records fit, in terms of the position [i] the field resolution
    returns. *)
Lemma extract_road_data_runs (sf : Reader C) types :
  fields_of sf ≠ [] →
  records_fit sf →
  ∃ out0 i column,
    road_type_index_of (C:=C) road_type_candidates (fields_of sf) = (out0, Ok i) ∧
    _extract_road_data sf types
      = (out0 ++ [MsgUniqueRoadTypes column],
         Ok ((filter (λ p, field_in i types p.1) (pairs_of sf)).*2,
             {| columns := fields_of sf ++ ["start_lat"; "start_long"; "end_lat"; "end_long"];
                rows := pd_cells (length (fields_of sf) + 4)
                          (road_row <$> filter (row_eligible i types) (pairs_of sf)) |})).
Proof.
  intros Hne Hfit.
  destruct (road_type_index_of_runs road_type_candidates _ Hne) as (out0 & i & Hidx).
  pose proof (road_type_index_of_lt _ _ _ _ Hidx) as Hlt.
  pose proof (pairs_have_field sf i Hfit Hlt) as Hpairs.
  destruct (mapM_getitem (sf_records sf) i) as [column Hcolumn].
  { unfold records_fit in Hfit. eapply Forall_impl; [exact Hfit|].
    intros r Hr. apply lookup_lt_is_Some. simpl in Hr. lia. }
  exists out0, i, column. split; [exact Hidx|].
  unfold _extract_road_data. rewrite Hidx.
  unfold mbind at 1, M_bind at 1. cbv beta iota.
  rewrite Hcolumn, M_bind_ret.
  rewrite (shapes_where_filter _ (field_in i types)).
  2:{ eapply Forall_impl; [exact Hpairs|]. intros [r s] [v Hv]; simpl in *.
      rewrite (getitem_Some _ _ _ Hv), M_bind_ret.
      by rewrite (py_in_field_in r i v types Hv). }
  fold (pairs_of sf). rewrite (road_data_loop_rows i types _ [] Hpairs).
  unfold mbind at 1, M_bind at 1, print. cbv beta iota.
  rewrite !M_bind_ret, (pd_DataFrame_fit _ _ (road_rows_fit sf i types Hfit)).
  by rewrite M_bind_ret, length_app.
Qed.

(** Filtering by a stronger predicate keeps fewer elements, and as many
    only when the extra condition holds wherever the weaker one does. *)
Lemma filter_stronger_length {A} (R P Q : A → Prop)
    `{∀ x, Decision (R x)} `{∀ x, Decision (P x)} (l : list A) :
  (∀ x, R x ↔ P x ∧ Q x) →
  (length (filter R l) ≤ length (filter P l))%nat ∧
  (length (filter R l) = length (filter P l) ↔ Forall (λ x, P x → Q x) l).
Proof.
  intros HR. induction l as [|x l [IHle IHeq]]; simpl.
  - split; [lia|]. split; [constructor|reflexivity].
  - rewrite !filter_cons, Forall_cons.
    destruct (decide (R x)) as [HRx|HRx], (decide (P x)) as [HPx|HPx]; simpl.
    + split; [lia|]. rewrite <- IHeq. apply HR in HRx. split; [|lia].
      intros Heq. split; [tauto|lia].
    + apply HR in HRx. tauto.
    + split; [lia|]. split; [lia|]. intros [HQx _]. destruct HRx. apply HR. tauto.
    + split; [lia|]. rewrite <- IHeq. tauto.
Qed.

(** C4. On a non-empty schema the field resolution of the road
    classifier returns, for any candidate list, the schema position of
    the first candidate in candidate order that the schema contains,
    whatever candidates follow it; and when the schema contains no
    candidate it prints the two warning lines, uses the first schema
    field and returns position 0 without raising. *)
Theorem candidate_resolution_first_match (candidates fields : list string) :
  fields ≠ [] →
  (∀ before c after,
     candidates = before ++ c :: after →
     (∀ c', c' ∈ before → c' ∉ fields) →
     c ∈ fields →
     ∃ i, fields !! i = Some c ∧ (∀ j, j < i → fields !! j ≠ Some c) ∧
          road_type_index_of (C:=C) candidates fields = ([MsgUsing c], Ok i)) ∧
  ((∀ c, c ∈ candidates → c ∉ fields) →
     ∃ f0, fields !! 0 = Some f0 ∧
           road_type_index_of (C:=C) candidates fields
             = ([MsgNoRoadTypeField fields; MsgFallback; MsgUsing f0], Ok 0)).
Proof.
  intros Hne. split.
  - intros before c after Hcands Hbefore Hc.
    destruct (list_index_elem c fields Hc) as [i Hi]. exists i.
    destruct (proj1 (list_index_Some c fields i) Hi) as [Hl Hfirst].
    split; [exact Hl|]. split; [exact Hfirst|].
    unfold road_type_index_of.
    rewrite (find_candidate_first _ _ _ _ _ Hcands Hbefore Hc), M_bind_ret, Hi.
    reflexivity.
  - intros Hnone. destruct fields as [|f0 fields]; [done|]. exists f0.
    split; [reflexivity|].
    unfold road_type_index_of. rewrite (find_candidate_None _ _ Hnone).
    run_M. rewrite decide_True by done. reflexivity.
Qed.

(** C2. On a store with a non-empty schema that its records fit, with
    [i] the resolved road-type field, the classifier returns as
    rendering list the geometries of exactly the pairs whose value in
    field [i] is one of the allowed strings, in store order, and as table
    the DataFrame of the rows of exactly those of these pairs whose
    geometry has shape type 3 and at least one point.  So there are at
    most as many rows as rendered geometries, and as many exactly when
    every type-matched geometry is a polyline with points. *)
Theorem rendering_list_is_broader_than_table (sf : Reader C) types :
  fields_of sf ≠ [] →
  records_fit sf →
  ∃ out0 i out sel table,
    road_type_index_of (C:=C) road_type_candidates (fields_of sf) = (out0, Ok i) ∧
    _extract_road_data sf types = (out, Ok (sel, table)) ∧
    sel = (filter (λ p, field_in i types p.1) (pairs_of sf)).*2 ∧
    rows table
      = pd_cells (length (columns table))
          (road_row <$> filter (λ p, field_in i types p.1 ∧ shapeType p.2 = 3%Z ∧ points p.2 ≠ [])
                               (pairs_of sf)) ∧
    (length (rows table) ≤ length sel)%nat ∧
    (length (rows table) = length sel ↔
       Forall (λ p, field_in i types p.1 → shapeType p.2 = 3%Z ∧ points p.2 ≠ [])
              (pairs_of sf)).
Proof.
  intros Hne Hfit.
  destruct (extract_road_data_runs sf types Hne Hfit) as (out0 & i & column & Hidx & Hrun).
  eexists out0, i, _, _, _. split; [exact Hidx|]. split; [exact Hrun|].
  split; [reflexivity|]. split; [by simpl; rewrite length_app|].
  simpl. rewrite pd_cells_length, !length_fmap.
  apply (filter_stronger_length (row_eligible i types) (λ p, field_in i types p.1)
           (λ p, shapeType p.2 = 3%Z ∧ points p.2 ≠ [])).
  intros p. reflexivity.
Qed.



End classifier_run.

Lemma candidate_resolution_first_match_witness :
  ["name"; "highway"; "type"] ≠ [] ∧
  (∃ i, ["name"; "highway"; "type"] !! i = Some "type" ∧
        road_type_index_of (C:=Z) road_type_candidates ["name"; "highway"; "type"]
          = ([MsgUsing "type"], Ok i)) ∧
  (∃ f0, ["osm_id"; "name"] !! 0 = Some f0 ∧
         road_type_index_of (C:=Z) road_type_candidates ["osm_id"; "name"]
           = ([MsgNoRoadTypeField ["osm_id"; "name"]; MsgFallback; MsgUsing f0], Ok 0)).
Proof.
  split; [discriminate|]. split.
  - destruct (candidate_resolution_first_match (C:=Z) road_type_candidates
                ["name"; "highway"; "type"]) as [Hfirst _]; [discriminate|].
    destruct (Hfirst [] "type" ["highway"; "road_type"; "roadtype"; "class"])
      as (i & Hi & _ & Hrun).
    + reflexivity.
    + intros c' Hc'. by apply elem_of_nil in Hc'.
    + right. right. left.
    + by exists i.
  - destruct (candidate_resolution_first_match (C:=Z) road_type_candidates
                ["osm_id"; "name"]) as [_ Hfallback]; [discriminate|].
    apply Hfallback. intros c Hc. vm_compute in Hc.
    repeat (apply elem_of_cons in Hc as [->|Hc];
            [intros Hin; repeat (apply elem_of_cons in Hin as [[=]|Hin]);
             by apply elem_of_nil in Hin|]).
    by apply elem_of_nil in Hc.
Defined.

Lemma rendering_list_is_broader_than_table_witness :
  fields_of mixed_road_store ≠ [] ∧ records_fit mixed_road_store ∧
  ∃ out0 i out sel table,
    road_type_index_of (C:=Z) road_type_candidates (fields_of mixed_road_store)
      = (out0, Ok i) ∧
    _extract_road_data mixed_road_store ["primary"; "residential"]
      = (out, Ok (sel, table)) ∧
    sel = (filter (λ p, field_in i ["primary"; "residential"] p.1)
                  (pairs_of mixed_road_store)).*2 ∧
    (length (rows table) ≤ length sel)%nat.
Proof.
  assert (fields_of mixed_road_store ≠ []) as Hne by discriminate.
  assert (records_fit mixed_road_store) as Hfit by repeat constructor.
  repeat (split; [assumption|]).
  destruct (rendering_list_is_broader_than_table mixed_road_store
              ["primary"; "residential"] Hne Hfit)
    as (out0 & i & out & sel & table & Hidx & Hrun & Hsel & _ & Hle & _).
  by exists out0, i, out, sel, table.
Defined.





(** ** The scenario of the specification *)

(** C8, as stated, fails: on the scenario store with three polylines the
    classifier does not return one rendered geometry and one row. *)
Lemma scenario_one_geometry_one_row_counterexample :
  ¬ ∃ out sel table,
      _extract_road_data (scenario_store road_a road_b road_c) ["primary"]
        = (out, Ok (sel, table)) ∧
      length sel = 1 ∧ length (rows table) = 1.
Proof.
  intros (out & sel & table & Hrun & Hsel & _).
  vm_compute in Hrun. injection Hrun as _ <- _. discriminate Hsel.
Qed.

(** C8, amended. On the scenario store, whatever the three geometries,
    the classifier resolves the field [highway], type-matches the two
    [primary] records and leaves the [footway] record out: the rendering
    list is the first and the third geometry, and the table has the rows
    of those of these two that are polylines with points, two rows when
    both are. *)
Theorem scenario_selects_both_primary_roads (g1 g2 g3 : Shape Z) :
  ∃ out table,
    _extract_road_data (scenario_store g1 g2 g3) ["primary"]
      = (out, Ok ([g1; g3], table)) ∧
    rows table
      = road_row <$> filter (λ p, shapeType p.2 = 3%Z ∧ points p.2 ≠ [])
                            [([VStr "CityA"; VStr "primary"], g1);
                             ([VStr "CityB"; VStr "primary"], g3)] ∧
    (shapeType g1 = 3%Z → points g1 ≠ [] → shapeType g3 = 3%Z → points g3 ≠ [] →
     length (rows table) = 2).
Proof.
  destruct (extract_road_data_runs (scenario_store g1 g2 g3) ["primary"])
    as (out0 & i & column & Hidx & Hrun); [discriminate|repeat constructor|].
  vm_compute in Hidx. injection Hidx as _ <-.
  assert (filter (λ p, field_in 1 ["primary"] p.1) (pairs_of (scenario_store g1 g2 g3))
          = [([VStr "CityA"; VStr "primary"], g1); ([VStr "CityB"; VStr "primary"], g3)])
    as Hsel.
  { reflexivity. }
  assert (filter (row_eligible 1 ["primary"]) (pairs_of (scenario_store g1 g2 g3))
          = filter (λ p, shapeType p.2 = 3%Z ∧ points p.2 ≠ [])
              [([VStr "CityA"; VStr "primary"], g1); ([VStr "CityB"; VStr "primary"], g3)])
    as Hrows.
  { rewrite <- Hsel, list_filter_filter. apply list_filter_iff. intros p.
    unfold row_eligible. tauto. }
  rewrite Hsel, Hrows in Hrun.
  assert (pd_cells (length (fields_of (scenario_store g1 g2 g3)) + 4)
            (road_row <$> filter (λ p, shapeType p.2 = 3%Z ∧ points p.2 ≠ [])
               [([VStr "CityA"; VStr "primary"], g1); ([VStr "CityB"; VStr "primary"], g3)])
          = road_row <$> filter (λ p, shapeType p.2 = 3%Z ∧ points p.2 ≠ [])
               [([VStr "CityA"; VStr "primary"], g1); ([VStr "CityB"; VStr "primary"], g3)])
    as Hkept.
  { rewrite !filter_cons, filter_nil.
    destruct (decide _) as [[_ P1]|_]; destruct (decide _) as [[_ P3]|_];
      rewrite ?fmap_cons, ?fmap_nil;
      try destruct (road_row_points _ P1) as (f1 & l1 & _ & _ & ->);
      try destruct (road_row_points _ P3) as (f3 & l3 & _ & _ & ->);
      reflexivity. }
  rewrite Hkept in Hrun.
  eexists _, _. split; [exact Hrun|]. split; [reflexivity|].
  intros H1 P1 H3 P3. simpl. rewrite !filter_cons, filter_nil. simpl.
  rewrite !decide_True by done. reflexivity.
Qed.

(** * Properties of the rest of the pipeline *)

Ltac run_P := unfold mbind, P_bind, mret, P_ret, emit, fail; simpl.

(** Split the membership [H] in appended, consed and mapped lists into
    its cases. *)
Ltac split_elem_of H :=
  repeat first
    [ apply elem_of_nil in H; destruct H
    | apply elem_of_app in H as [H|H]
    | apply elem_of_cons in H as [H|H]
    | apply list_elem_of_fmap in H as (? & H & _) ].

Section plotting.
Context `{Coord C} `{Platform C}.

Lemma P_bind_Done {A B} done (a : A) (f : A → P C B) :
  (done, Done a) ≫= f = (done ++ (f a).1, (f a).2).
Proof. run_P. by destruct (f a). Qed.

Lemma P_bind_Fail {A B} done e (f : A → P C B) :
  (done, Fail e) ≫= f = (done, Fail e).
Proof. reflexivity. Qed.

Lemma plot_shapes_all linewidth (shapes : list (Shape C)) :
  Forall (λ s, points s ≠ []) shapes →
  plot_shapes linewidth shapes = (plots_of linewidth shapes, Done tt).
Proof.
  induction 1 as [|s shapes Hs _ IH]; [reflexivity|]. simpl.
  destruct (points s) as [|p ps] eqn:Hp; [done|].
  unfold plots_of in *. rewrite fmap_cons. simpl. rewrite ?Hp.
  run_P. rewrite IH. reflexivity.
Qed.

Lemma plot_shapes_stops linewidth (before : list (Shape C)) s after :
  Forall (λ s, points s ≠ []) before →
  points s = [] →
  plot_shapes linewidth (before ++ s :: after)
    = (plots_of linewidth before, Fail (UnpackError 2 0)).
Proof.
  intros Hbefore Hs. induction Hbefore as [|s' before Hs' _ IH]; simpl.
  - rewrite Hs. reflexivity.
  - destruct (points s') as [|p ps] eqn:Hp; [done|].
    unfold plots_of in *. rewrite fmap_cons. simpl. rewrite ?Hp.
    run_P. rewrite IH. reflexivity.
Qed.

(** A list with a geometry without points splits at the first one. *)
Lemma first_without_points (shapes : list (Shape C)) :
  Exists (λ s, points s = []) shapes →
  ∃ before s after,
    shapes = before ++ s :: after ∧
    Forall (λ s, points s ≠ []) before ∧ points s = [].
Proof.
  induction shapes as [|s shapes IH]; intros Hex; [by apply Exists_nil in Hex|].
  destruct (points s) as [|p ps] eqn:Hp.
  - by exists [], s, shapes.
  - apply Exists_cons in Hex as [Hs|Hex]; [congruence|].
    destruct (IH Hex) as (before & s' & after & -> & Hbefore & Hs').
    exists (s :: before), s', after. split; [reflexivity|]. split; [|exact Hs'].
    constructor; [by rewrite Hp|exact Hbefore].
Qed.

(** Both plotting methods, on geometries that all have points: one figure,
    one line per geometry in order, holding the x and the y coordinates of
    its points, and one image saved under the output directory, its name
    the city name with spaces turned into underscores. *)
Theorem plot_draws_every_shape (self : OSMCityPipeline) city (shapes : list (Shape C)) :
  Forall (λ s, points s ≠ []) shapes →
  _plot_city_boundaries self city shapes
    = ([PltFigure 10 8] ++ plots_of "1" shapes ++
       [PltTitle (city +:+ " - Administrative Boundaries");
        PltXlabel "Longitude"; PltYlabel "Latitude"; PltGrid;
        PltSavefig (os_path_join (output_dir self)
                      (str_replace " " "_" city +:+ "_boundaries.png")) 300;
        PltClose;
        EBoundariesSaved (os_path_join (output_dir self)
                            (str_replace " " "_" city +:+ "_boundaries.png"))],
       Done tt) ∧
  _plot_city_roads self city shapes
    = ([PltFigure 12 10] ++ plots_of "0.8" shapes ++
       [PltTitle ("Roads in " +:+ city);
        PltXlabel "Longitude"; PltYlabel "Latitude"; PltGrid;
        PltSavefig (os_path_join (output_dir self)
                      (str_replace " " "_" city +:+ "_roads.png")) 300;
        PltClose;
        ERoadsMapSaved (os_path_join (output_dir self)
                          (str_replace " " "_" city +:+ "_roads.png"))],
       Done tt) ∧
  Forall2 (λ s e, ∃ x y linewidth,
             e = PltPlot x y linewidth ∧ zip x y = points s)
          shapes (plots_of "1" shapes).
Proof.
  intros Hall. split; [|split].
  - unfold _plot_city_boundaries. rewrite (plot_shapes_all "1" shapes Hall).
    run_P. reflexivity.
  - unfold _plot_city_roads. rewrite (plot_shapes_all "0.8" shapes Hall).
    run_P. reflexivity.
  - unfold plots_of. apply Forall2_fmap_r, Forall_Forall2_diag, Forall_forall.
    intros s _. eexists _, _, _. split; [reflexivity|apply zip_fst_snd].
Qed.

(** Both plotting methods stop at the first geometry without points with
    the unpacking error: the figure is opened and the geometries before it
    are drawn, but no image is saved and the figure is not closed. *)
Theorem plot_stops_at_shape_without_points (self : OSMCityPipeline) city
    (before : list (Shape C)) s after :
  Forall (λ s, points s ≠ []) before →
  points s = [] →
  _plot_city_boundaries self city (before ++ s :: after)
    = ([PltFigure 10 8] ++ plots_of "1" before, Fail (UnpackError 2 0)) ∧
  _plot_city_roads self city (before ++ s :: after)
    = ([PltFigure 12 10] ++ plots_of "0.8" before, Fail (UnpackError 2 0)).
Proof.
  intros Hbefore Hs. split.
  - unfold _plot_city_boundaries.
    rewrite (plot_shapes_stops "1" before s after Hbefore Hs). reflexivity.
  - unfold _plot_city_roads.
    rewrite (plot_shapes_stops "0.8" before s after Hbefore Hs). reflexivity.
Qed.

End plotting.

Section extraction_edges.
Context `{CoordOrder C} `{Pandas C}.

(** Whenever boundary extraction returns, it returns at least one
    geometry, the geometries have at least one point between them, and
    the box is ordered on both axes: min_x ≤ max_x and min_y ≤ max_y. *)
Theorem returned_box_is_ordered (sf : Reader C) city fld out shapes a b c d :
  _extract_city_boundaries sf city fld = (out, Ok (shapes, (a, b, c, d))) →
  shapes ≠ [] ∧ all_points_of shapes ≠ [] ∧ coord_le a c ∧ coord_le b d.
Proof.
  intros (Hpts & Ha & Hb & Hc & Hd)%extract_city_boundaries_Ok.
  destruct (extremes_bound _ a b c d Ha Hb Hc Hd)
    as (Hbound & ([xa ya] & Hpa & <-) & ([xb yb] & Hpb & <-) & _).
  split; [by intros ->|]. split; [exact Hpts|].
  split; [apply (Hbound xa ya Hpa)|apply (Hbound xb yb Hpb)].
Qed.

(** A record too short to have the resolved field makes boundary
    extraction raise [IndexError], whatever the other records hold. *)
Theorem short_record_raises_index_error (sf : Reader C) city fld i :
  list_index fld (fields_of sf) = Some i →
  Exists (λ p, length p.1 ≤ i)%nat (pairs_of sf) →
  _extract_city_boundaries sf city fld = ([], Raise IndexError).
Proof.
  intros Hidx Hshort. unfold _extract_city_boundaries. rewrite Hidx, M_bind_ret.
  fold (pairs_of sf).
  assert (shapes_where (λ record, v ← getitem record i; mret (py_eq_str v city))
            (pairs_of sf) = ([], Raise IndexError)) as ->; [|reflexivity].
  induction (pairs_of sf) as [|[r s] pairs IH]; [by apply Exists_nil in Hshort|].
  simpl. destruct (r !! i) as [v|] eqn:Hv.
  - rewrite (getitem_Some _ _ _ Hv), !M_bind_ret.
    apply Exists_cons in Hshort as [Hr|Hrest].
    + simpl in Hr. apply lookup_lt_Some in Hv. lia.
    + rewrite (IH Hrest). reflexivity.
  - unfold getitem. rewrite Hv. reflexivity.
Qed.

(** Boundary extraction pairs records and geometries up to the shorter of
    the two lists and never looks at the rest. *)
Theorem extraction_ignores_unpaired (sf : Reader C) city fld :
  _extract_city_boundaries sf city fld
  = _extract_city_boundaries
      {| sf_fields := sf_fields sf;
         sf_records := take (length (sf_shapes sf)) (sf_records sf);
         sf_shapes := take (length (sf_records sf)) (sf_shapes sf) |}
      city fld.
Proof.
  unfold _extract_city_boundaries, fields_of. simpl.
  assert (∀ (l : list (record C)) (k : list (Shape C)),
            zip (take (length k) l) (take (length l) k) = zip l k) as ->;
    [|reflexivity].
  induction l as [|x l IH]; intros [|y k]; simpl; [done..|]. by rewrite IH.
Qed.

(** On a store without fields road classification prints the two warning
    lines and raises [IndexError] at [fields[0]]. *)
Theorem empty_schema_raises_index_error (sf : Reader C) types :
  fields_of sf = [] →
  _extract_road_data sf types
    = ([MsgNoRoadTypeField []; MsgFallback], Raise IndexError).
Proof. intros Hnil. unfold _extract_road_data. rewrite Hnil. reflexivity. Qed.

(** When no record's value in the resolved field is an allowed type, road
    classification returns an empty rendering list and a table with the
    extended columns and no rows, without raising. *)
Theorem no_type_match_gives_empty_table (sf : Reader C) types out0 i :
  road_type_index_of (C:=C) road_type_candidates (fields_of sf) = (out0, Ok i) →
  records_fit sf →
  Forall (λ p, ¬ field_in i types p.1) (pairs_of sf) →
  ∃ out,
    _extract_road_data sf types
      = (out, Ok ([], {| columns := fields_of sf
                                      ++ ["start_lat"; "start_long"; "end_lat"; "end_long"];
                         rows := [] |})).
Proof.
  intros Hidx Hfit Hnone.
  assert (∀ P `{∀ p, Decision (P p)},
            (∀ p, P p → field_in i types p.1) →
            filter P (pairs_of sf) = []) as Hempty.
  { intros P ? HP. clear Hidx Hfit.
    induction Hnone as [|p pairs Hp _ IH]; [reflexivity|].
    rewrite filter_cons, decide_False; [exact IH|]. intros HPp. exact (Hp (HP p HPp)). }
  assert (fields_of sf ≠ []) as Hne.
  { pose proof (road_type_index_of_lt _ _ _ _ Hidx) as Hlt. intros Hnil.
    rewrite Hnil in Hlt. simpl in Hlt. lia. }
  destruct (extract_road_data_runs sf types Hne Hfit)
    as (out0' & i' & column & Hidx' & Hrun).
  rewrite Hidx in Hidx'. injection Hidx' as <- <-.
  rewrite (Hempty (λ p, field_in i types p.1)) in Hrun by done.
  rewrite (Hempty (row_eligible i types)) in Hrun by (by intros p [? _]).
  eexists. exact Hrun.
Qed.

(** When the schema has none of the candidate field names, road
    classification selects on the first field of the schema, whatever it
    holds: the rendering list and the rows of the DataFrame are those of
    the pairs selected on that field. *)
Theorem fallback_classifies_on_first_field (sf : Reader C) types :
  fields_of sf ≠ [] →
  records_fit sf →
  (∀ c, c ∈ road_type_candidates → c ∉ fields_of sf) →
  ∃ out table,
    _extract_road_data sf types
      = (out, Ok ((filter (λ p, field_in 0 types p.1) (pairs_of sf)).*2, table)) ∧
    rows table
      = pd_cells (length (columns table))
          (road_row <$> filter (row_eligible 0 types) (pairs_of sf)).
Proof.
  intros Hne Hfit Hnone.
  destruct (extract_road_data_runs sf types Hne Hfit)
    as (out0 & i & column & Hidx & Hrun).
  assert (i = 0) as ->.
  { unfold road_type_index_of in Hidx. rewrite (find_candidate_None _ _ Hnone) in Hidx.
    destruct (fields_of sf) as [|f0 fields]; [done|].
    revert Hidx. run_M. rewrite decide_True by done. by intros [= _ <-]. }
  eexists _, _. split; [exact Hrun|]. simpl. by rewrite length_app.
Qed.

End extraction_edges.

Section city.
Context `{CoordOrder C} `{Pandas C} `{Platform C}.

Lemma call_Ok {A} (m : M C A) out a : m = (out, Ok a) → call m = (EPrint <$> out, Done a).
Proof. by intros ->. Qed.

Lemma call_Raise {A} (m : M C A) out e :
  m = (out, Raise e) → call m = (EPrint <$> out, Fail (Exn e)).
Proof. by intros ->. Qed.

Lemma open_shapefile_Some path (sf : Reader C) :
  shapefile_Reader path = Some sf → open_shapefile path = mret sf.
Proof. unfold open_shapefile. by intros ->. Qed.

Lemma P_bind_ret {A B} (a : A) (f : A → P C B) : mret a ≫= f = f a.
Proof. run_P. by destruct (f a). Qed.

(** The events of [_plot_city_boundaries] when every geometry has points. *)
Lemma plot_city_boundaries_all (self : OSMCityPipeline) city (shapes : list (Shape C)) :
  Forall (λ s, points s ≠ []) shapes →
  _plot_city_boundaries self city shapes
    = ([PltFigure 10 8] ++ plots_of "1" shapes ++
       [PltTitle (city +:+ " - Administrative Boundaries");
        PltXlabel "Longitude"; PltYlabel "Latitude"; PltGrid;
        PltSavefig (os_path_join (output_dir self)
                      (str_replace " " "_" city +:+ "_boundaries.png")) 300;
        PltClose;
        EBoundariesSaved (os_path_join (output_dir self)
                            (str_replace " " "_" city +:+ "_boundaries.png"))],
       Done tt).
Proof.
  intros Hall. unfold _plot_city_boundaries. rewrite (plot_shapes_all "1" shapes Hall).
  run_P. reflexivity.
Qed.

(** When boundary extraction raises, [process_city] stops there with that
    exception: after the prints of the extraction it prints no URL, draws
    nothing and writes no file. *)
Theorem failed_extraction_stops_the_city (self : OSMCityPipeline) city fld rp rt
    sf out e :
  shapefile_Reader (base_shapefile_path self) = Some sf →
  _extract_city_boundaries sf city fld = (out, Raise e) →
  process_city self city fld rp rt
    = (EProcessing city :: (EPrint <$> out), Fail (Exn e)).
Proof.
  intros Hsf Hrun. unfold process_city.
  rewrite (open_shapefile_Some _ _ Hsf), P_bind_ret, (call_Raise _ _ _ Hrun).
  run_P. reflexivity.
Qed.

(** With boundaries extracted and drawn, a roads path that does not exist
    is no failure: [process_city] reports it and returns the city name,
    the box and the URL of the box; it reads no roads and writes no CSV. *)
Theorem missing_roads_still_returns (self : OSMCityPipeline) city fld rt
    sf out shapes box path :
  shapefile_Reader (base_shapefile_path self) = Some sf →
  _extract_city_boundaries sf city fld = (out, Ok (shapes, box)) →
  Forall (λ s, points s ≠ []) shapes →
  os_path_exists path = false →
  process_city self city fld (Some path) rt
    = ([EProcessing city] ++ (EPrint <$> out)
         ++ [EUrl city (_generate_bbbike_url box)]
         ++ (_plot_city_boundaries self city shapes).1
         ++ [ERoadsMissing path; ECompleted city],
       Done {| res_city_name := city; res_bbox := box;
               res_bbbike_url := _generate_bbbike_url box |}).
Proof.
  intros Hsf Hrun Hall Hmissing. unfold process_city.
  rewrite (open_shapefile_Some _ _ Hsf), P_bind_ret, (call_Ok _ _ _ Hrun).
  run_P. rewrite (plot_city_boundaries_all self city shapes Hall), Hmissing.
  simpl. rewrite <- !app_assoc. reflexivity.
Qed.

(** A selected boundary geometry without points does not stop boundary
    extraction when another has points, but it stops [process_city] at the
    boundaries map with the unpacking error: the URL is already printed,
    no map is saved, no road is read and nothing is returned. *)
Theorem boundary_without_points_stops_the_city (self : OSMCityPipeline) city fld rp rt
    sf out before s after box :
  shapefile_Reader (base_shapefile_path self) = Some sf →
  _extract_city_boundaries sf city fld = (out, Ok (before ++ s :: after, box)) →
  Forall (λ s, points s ≠ []) before →
  points s = [] →
  process_city self city fld rp rt
    = ([EProcessing city] ++ (EPrint <$> out)
         ++ [EUrl city (_generate_bbbike_url box); PltFigure 10 8]
         ++ plots_of "1" before,
       Fail (UnpackError 2 0)).
Proof.
  intros Hsf Hrun Hbefore Hs. unfold process_city.
  rewrite (open_shapefile_Some _ _ Hsf), P_bind_ret, (call_Ok _ _ _ Hrun).
  run_P. unfold _plot_city_boundaries.
  rewrite (plot_shapes_stops "1" before s after Hbefore Hs).
  run_P. rewrite <- ?app_assoc. reflexivity.
Qed.

(** Without a roads path [process_city] infers one from the base path: in
    the directory of the base shapefile, the file named after the second
    underscore-separated piece of the base file name, twice, and the city
    name as given.  The theorem takes the case where that file is missing. *)
Theorem roads_path_is_inferred_from_base (self : OSMCityPipeline) city fld rt
    sf out shapes box country_code :
  shapefile_Reader (base_shapefile_path self) = Some sf →
  _extract_city_boundaries sf city fld = (out, Ok (shapes, box)) →
  Forall (λ s, points s ≠ []) shapes →
  split_on "_" (os_path_basename (base_shapefile_path self)) !! 1 = Some country_code →
  let path :=
    os_path_join (os_path_dirname (base_shapefile_path self))
      (country_code +:+ "_" +:+ country_code +:+ ".20_1+" +:+ city +:+ "_roads.shp") in
  os_path_exists path = false →
  process_city self city fld None rt
    = ([EProcessing city] ++ (EPrint <$> out)
         ++ [EUrl city (_generate_bbbike_url box)]
         ++ (_plot_city_boundaries self city shapes).1
         ++ [EInferred path; ERoadsMissing path; ECompleted city],
       Done {| res_city_name := city; res_bbox := box;
               res_bbbike_url := _generate_bbbike_url box |}).
Proof.
  intros Hsf Hrun Hall Hcode path Hmissing. unfold process_city, second.
  rewrite (open_shapefile_Some _ _ Hsf), P_bind_ret, (call_Ok _ _ _ Hrun), Hcode.
  run_P. fold path.
  rewrite (plot_city_boundaries_all self city shapes Hall), Hmissing.
  simpl. rewrite <- !app_assoc. reflexivity.
Qed.

(** Without a roads path and with a base file name that has no
    underscore, [process_city] raises [IndexError] when it infers the
    roads path: after the boundaries map is saved and before any road is
    read. *)
Theorem base_name_without_underscore_raises (self : OSMCityPipeline) city fld rt
    sf out shapes box :
  shapefile_Reader (base_shapefile_path self) = Some sf →
  _extract_city_boundaries sf city fld = (out, Ok (shapes, box)) →
  Forall (λ s, points s ≠ []) shapes →
  has_char "_" (os_path_basename (base_shapefile_path self)) = false →
  process_city self city fld None rt
    = ([EProcessing city] ++ (EPrint <$> out)
         ++ [EUrl city (_generate_bbbike_url box)]
         ++ (_plot_city_boundaries self city shapes).1,
       Fail (Exn IndexError)).
Proof.
  intros Hsf Hrun Hall Hname. unfold process_city, second.
  rewrite (open_shapefile_Some _ _ Hsf), P_bind_ret, (call_Ok _ _ _ Hrun).
  rewrite (split_on_whole _ _ Hname).
  run_P. rewrite (plot_city_boundaries_all self city shapes Hall).
  simpl. rewrite <- !app_assoc, app_nil_r. reflexivity.
Qed.

(** A type-matched road geometry without points gets no table row, yet it
    is in the rendering list, and drawing the rendering list raises the
    unpacking error: the roads map is not saved. *)
Theorem road_without_points_fails_the_map (self : OSMCityPipeline) city
    (sf : Reader C) types out0 i r s :
  road_type_index_of (C:=C) road_type_candidates (fields_of sf) = (out0, Ok i) →
  records_fit sf →
  (r, s) ∈ pairs_of sf →
  field_in i types r →
  points s = [] →
  ∃ out sel table done,
    _extract_road_data sf types = (out, Ok (sel, table)) ∧
    s ∈ sel ∧
    (length (rows table) < length sel)%nat ∧
    _plot_city_roads self city sel = (done, Fail (UnpackError 2 0)) ∧
    (∀ f dpi, PltSavefig f dpi ∉ done).
Proof.
  intros Hidx Hfit Hin Htype Hpts.
  assert (fields_of sf ≠ []) as Hne.
  { pose proof (road_type_index_of_lt _ _ _ _ Hidx) as Hlt. intros Hnil.
    rewrite Hnil in Hlt. simpl in Hlt. lia. }
  destruct (extract_road_data_runs sf types Hne Hfit)
    as (out0' & i' & column & Hidx' & Hrun).
  rewrite Hidx in Hidx'. injection Hidx' as <- <-.
  set (sel := (filter (λ p, field_in i types p.1) (pairs_of sf)).*2) in *.
  assert (s ∈ sel) as Hsel.
  { unfold sel. apply list_elem_of_fmap. exists (r, s). split; [reflexivity|].
    by apply list_elem_of_filter. }
  destruct (first_without_points sel) as (before & s' & after & Esel & Hbefore & Hs').
  { apply Exists_exists. by exists s. }
  eexists _, sel, _, _. split; [exact Hrun|]. split; [exact Hsel|]. split; [|split].
  - simpl. unfold sel. rewrite pd_cells_length, !length_fmap.
    destruct (filter_stronger_length (row_eligible i types) (λ p, field_in i types p.1)
                (λ p, shapeType p.2 = 3%Z ∧ points p.2 ≠ []) (pairs_of sf))
      as [Hle Heq]; [intros p; reflexivity|].
    destruct (decide (length (filter (row_eligible i types) (pairs_of sf))
                      = length (filter (λ p, field_in i types p.1) (pairs_of sf))))
      as [Hsame|Hdiff]; [|lia].
    apply Heq in Hsame. rewrite Forall_forall in Hsame.
    destruct (Hsame (r, s) Hin Htype) as [_ Hne']. by destruct Hne'.
  - rewrite Esel. unfold _plot_city_roads.
    rewrite (plot_shapes_stops "0.8" before s' after Hbefore Hs'). reflexivity.
  - intros f dpi [Habs|Habs]%elem_of_cons; [discriminate|].
    unfold plots_of in Habs. apply list_elem_of_fmap in Habs as (? & Habs & _).
    discriminate.
Qed.

Lemma P_bind_Done_inv {A B} (m : P C A) (f : A → P C B) done b :
  m ≫= f = (done, Done b) →
  ∃ done1 a done2, m = (done1, Done a) ∧ f a = (done2, Done b) ∧ done = done1 ++ done2.
Proof.
  destruct m as [done1 [a|e]]; [|discriminate]. rewrite P_bind_Done.
  destruct (f a) as [done2 r] eqn:Hf. simpl. intros [= <- ->].
  by exists done1, a, done2.
Qed.

Lemma plot_shapes_Done linewidth (shapes : list (Shape C)) done u :
  plot_shapes linewidth shapes = (done, Done u) → Forall (λ s, points s ≠ []) shapes.
Proof.
  revert done. induction shapes as [|s shapes IH]; intros done; [constructor|].
  simpl. destruct (points s) as [|p ps] eqn:Hp; [discriminate|].
  run_P. destruct (plot_shapes linewidth shapes) as [done' [u'|e]] eqn:Hrest;
    [|discriminate].
  intros _. destruct u, u'. constructor; [by rewrite Hp|by eapply IH].
Qed.

Lemma call_Done_inv {A} (m : M C A) done a :
  call m = (done, Done a) → ∃ out, m = (out, Ok a) ∧ done = EPrint <$> out.
Proof. destruct m as [out [a'|e]]; [|discriminate]. intros [= <- ->]. by exists out. Qed.

Lemma open_shapefile_Done path done (sf : Reader C) :
  open_shapefile path = (done, Done sf) → shapefile_Reader path = Some sf ∧ done = [].
Proof.
  unfold open_shapefile. destruct (shapefile_Reader path); [|discriminate].
  by intros [= <- <-].
Qed.

Lemma plot_city_boundaries_Done (self : OSMCityPipeline) city (shapes : list (Shape C))
    done u :
  _plot_city_boundaries self city shapes = (done, Done u) →
  Forall (λ s, points s ≠ []) shapes.
Proof.
  unfold _plot_city_boundaries.
  intros (f1 & v1 & g1 & _ & Hplot & _)%P_bind_Done_inv.
  apply P_bind_Done_inv in Hplot as (f2 & v2 & g2 & Hplot & _).
  by eapply plot_shapes_Done.
Qed.

Lemma plot_city_roads_Done (self : OSMCityPipeline) city (shapes : list (Shape C))
    done u :
  _plot_city_roads self city shapes = (done, Done u) →
  Forall (λ s, points s ≠ []) shapes ∧ ∀ f df, ToCsv f df ∉ done.
Proof.
  intros Hplot.
  assert (Forall (λ s, points s ≠ []) shapes) as Hall.
  { unfold _plot_city_roads in Hplot.
    apply P_bind_Done_inv in Hplot as (f1 & v1 & g1 & _ & Hplot & _).
    apply P_bind_Done_inv in Hplot as (f2 & v2 & g2 & Hplot & _).
    by eapply plot_shapes_Done. }
  split; [exact Hall|]. revert Hplot. unfold _plot_city_roads.
  rewrite (plot_shapes_all "0.8" shapes Hall). run_P. intros [= <- _] f df.
  unfold plots_of. intros Hin. split_elem_of Hin; discriminate Hin.
Qed.

(** Whenever [process_city] returns, the base shapefile opened, boundary
    extraction returned the box of the result, every selected boundary
    geometry has points, the URL of the result is the URL of that box, and
    the last thing done was to report completion.  If the roads path was
    given and exists, the roads shapefile opened, road classification
    returned on it for the road types given (or the default ones), every
    geometry of its rendering list has points, and the table it returned,
    and no other, was written, to the CSV file of the city. *)
Theorem process_city_returns_extracted_box (self : OSMCityPipeline) city fld rp rt
    done res :
  process_city self city fld rp rt = (done, Done res) →
  res_city_name res = city ∧
  res_bbbike_url res = _generate_bbbike_url (res_bbox res) ∧
  (∃ sf out shapes,
     shapefile_Reader (base_shapefile_path self) = Some sf ∧
     _extract_city_boundaries sf city fld = (out, Ok (shapes, res_bbox res)) ∧
     Forall (λ s, points s ≠ []) shapes) ∧
  last done = Some (ECompleted city) ∧
  (∀ path, rp = Some path → os_path_exists path = true →
     ∃ roads_sf out roads table,
       shapefile_Reader path = Some roads_sf ∧
       _extract_road_data roads_sf
         (default ["residential"; "primary"; "secondary"; "tertiary"] rt)
         = (out, Ok (roads, table)) ∧
       Forall (λ s, points s ≠ []) roads ∧
       ToCsv (os_path_join (output_dir self)
                (str_replace " " "_" city +:+ "_roads.csv")) table ∈ done ∧
       (∀ f df, ToCsv f df ∈ done →
          f = os_path_join (output_dir self)
                (str_replace " " "_" city +:+ "_roads.csv") ∧ df = table)).
Proof.
  unfold process_city.
  intros (e1 & u1 & d1 & He1 & Hp & ->)%P_bind_Done_inv.
  apply P_bind_Done_inv in Hp as (e2 & sf & d2 & Hsf & Hp & ->).
  apply P_bind_Done_inv in Hp as (e3 & [shapes box] & d3 & Hrun & Hp & ->).
  cbn [fst snd] in Hp.
  apply P_bind_Done_inv in Hp as (e4 & u4 & d4 & He4 & Hp & ->).
  apply P_bind_Done_inv in Hp as (e5 & u5 & d5 & Hplot & Hp & ->).
  apply P_bind_Done_inv in Hp as (e6 & path & d6 & Hpath & Hp & ->).
  apply P_bind_Done_inv in Hp as (e7 & u7 & d7 & Hroads & Hp & ->).
  apply P_bind_Done_inv in Hp as (e8 & u8 & d8 & He8 & Hp & ->).
  injection Hp as <- <-. injection He8 as <-. injection He1 as <-. injection He4 as <-.
  apply open_shapefile_Done in Hsf as [Hsf ->].
  apply call_Done_inv in Hrun as (out & Hrun & ->).
  pose proof (plot_city_boundaries_Done _ _ _ _ _ Hplot) as Hall.
  split; [reflexivity|]. split; [reflexivity|]. split; [|split].
  - by exists sf, out, shapes.
  - rewrite app_nil_r, !app_assoc. apply last_snoc.
  - intros path' -> Hexists. injection Hpath as <- <-. rewrite Hexists in Hroads.
    apply P_bind_Done_inv in Hroads as (a1 & roads_sf & b1 & Hopen & Hroads & ->).
    apply P_bind_Done_inv in Hroads as (a2 & [roads table] & b2 & Hcall & Hroads & ->).
    cbn [fst snd] in Hroads.
    apply P_bind_Done_inv in Hroads as (a3 & v3 & b3 & Hmap & Hroads & ->).
    apply P_bind_Done_inv in Hroads as (a4 & v4 & b4 & Hcsv & Hsaved & ->).
    injection Hcsv as <-. injection Hsaved as <-.
    apply open_shapefile_Done in Hopen as [Hopen ->].
    apply call_Done_inv in Hcall as (out2 & Hcall & ->).
    apply plot_city_roads_Done in Hmap as [Hpoints Hnocsv].
    exists roads_sf, out2, roads, table.
    split; [exact Hopen|]. split; [exact Hcall|]. split; [exact Hpoints|]. split.
    + rewrite !elem_of_app, !elem_of_cons. tauto.
    + intros f df. revert Hplot.
      rewrite (plot_city_boundaries_all self city shapes Hall). intros [= <-].
      unfold plots_of. intros Hin. split_elem_of Hin;
        try discriminate Hin; try (by apply Hnocsv in Hin).
      by injection Hin as -> ->.
Qed.




End city.

(** ** The properties on the example stores *)

Lemma plot_draws_every_shape_witness :
  Forall (λ s : Shape Z, points s ≠ []) [road_a; road_b] ∧
  _plot_city_roads india "Mumbai City" [road_a; road_b]
    = ([PltFigure 12 10] ++ plots_of "0.8" [road_a; road_b] ++
       [PltTitle "Roads in Mumbai City";
        PltXlabel "Longitude"; PltYlabel "Latitude"; PltGrid;
        PltSavefig "./output/Mumbai_City_roads.png" 300;
        PltClose;
        ERoadsMapSaved "./output/Mumbai_City_roads.png"],
       Done tt).
Proof.
  assert (Forall (λ s : Shape Z, points s ≠ []) [road_a; road_b]) as Hall
    by (repeat constructor; discriminate).
  split; [exact Hall|].
  destruct (plot_draws_every_shape india "Mumbai City" [road_a; road_b] Hall)
    as (_ & Hroads & _).
  exact Hroads.
Defined.

Lemma plot_stops_at_shape_without_points_witness :
  Forall (λ s : Shape Z, points s ≠ []) [road_a] ∧
  points (polyline []) = [] ∧
  _plot_city_roads india "Mumbai City" ([road_a] ++ polyline [] :: [road_b])
    = ([PltFigure 12 10] ++ plots_of "0.8" [road_a], Fail (UnpackError 2 0)).
Proof.
  assert (Forall (λ s : Shape Z, points s ≠ []) [road_a]) as Hbefore
    by (repeat constructor; discriminate).
  split; [exact Hbefore|]. split; [reflexivity|].
  destruct (plot_stops_at_shape_without_points india "Mumbai City"
              [road_a] (polyline []) [road_b] Hbefore eq_refl) as [_ Hroads].
  exact Hroads.
Defined.

Lemma road_without_points_fails_the_map_witness :
  road_type_index_of (C:=Z) road_type_candidates (fields_of mixed_road_store)
    = ([MsgUsing "highway"], Ok 1) ∧
  records_fit mixed_road_store ∧
  ([VStr "C"; VStr "residential"], polyline []) ∈ pairs_of mixed_road_store ∧
  field_in 1 ["primary"; "residential"] [VStr "C"; VStr (C:=Z) "residential"] ∧
  ∃ out sel table done,
    _extract_road_data mixed_road_store ["primary"; "residential"]
      = (out, Ok (sel, table)) ∧
    polyline [] ∈ sel ∧
    (length (rows table) < length sel)%nat ∧
    _plot_city_roads india "Mumbai City" sel = (done, Fail (UnpackError 2 0)).
Proof.
  assert (road_type_index_of (C:=Z) road_type_candidates (fields_of mixed_road_store)
          = ([MsgUsing "highway"], Ok 1)) as Hidx by reflexivity.
  assert (records_fit mixed_road_store) as Hfit by repeat constructor.
  assert (([VStr "C"; VStr "residential"], polyline []) ∈ pairs_of mixed_road_store)
    as Hin by (do 2 right; left).
  assert (field_in 1 ["primary"; "residential"] [VStr "C"; VStr (C:=Z) "residential"])
    as Htype by (right; left; reflexivity).
  repeat (split; [assumption|]).
  destruct (road_without_points_fails_the_map india "Mumbai City" mixed_road_store
              ["primary"; "residential"] _ 1 _ (polyline []) Hidx Hfit Hin Htype eq_refl)
    as (out & sel & table & done & Hrun & Hsel & Hlt & Hplot & _).
  by exists out, sel, table, done.
Defined.

Lemma returned_box_is_ordered_witness :
  ∃ shapes a b c d,
    _extract_city_boundaries boundary_store "Mumbai City" "NAME_2"
      = ([], Ok (shapes, (a, b, c, d))) ∧
    shapes ≠ [] ∧ all_points_of shapes ≠ [] ∧ coord_le a c ∧ coord_le b d.
Proof.
  eexists _, _, _, _, _. split; [reflexivity|].
  apply (returned_box_is_ordered boundary_store "Mumbai City" "NAME_2" []).
  reflexivity.
Defined.

Lemma short_record_raises_index_error_witness :
  list_index "NAME_2" (fields_of ragged_store) = Some 1 ∧
  Exists (λ p, length p.1 ≤ 1)%nat (pairs_of ragged_store) ∧
  _extract_city_boundaries ragged_store "Pune" "NAME_2" = ([], Raise IndexError).
Proof.
  assert (Exists (λ p, length p.1 ≤ 1)%nat (pairs_of ragged_store)) as Hshort
    by (right; left; simpl; lia).
  split; [reflexivity|]. split; [exact Hshort|].
  apply (short_record_raises_index_error ragged_store "Pune" "NAME_2" 1 eq_refl Hshort).
Defined.

Lemma empty_schema_raises_index_error_witness :
  fields_of ({| sf_fields := schema []; sf_records := []; sf_shapes := [] |} : Reader Z) = [] ∧
  _extract_road_data
    ({| sf_fields := schema []; sf_records := []; sf_shapes := [] |} : Reader Z)
    ["primary"]
    = ([MsgNoRoadTypeField []; MsgFallback], Raise IndexError).
Proof.
  split; [reflexivity|].
  apply (empty_schema_raises_index_error
           ({| sf_fields := schema []; sf_records := []; sf_shapes := [] |} : Reader Z)
           ["primary"] eq_refl).
Defined.

Lemma no_type_match_gives_empty_table_witness :
  road_type_index_of (C:=Z) road_type_candidates (fields_of mixed_road_store)
    = ([MsgUsing "highway"], Ok 1) ∧
  records_fit mixed_road_store ∧
  Forall (λ p, ¬ field_in 1 ["motorway"] p.1) (pairs_of mixed_road_store) ∧
  ∃ out,
    _extract_road_data mixed_road_store ["motorway"]
      = (out, Ok ([], {| columns := ["name"; "highway"; "start_lat"; "start_long";
                                       "end_lat"; "end_long"];
                         rows := [] |})).
Proof.
  assert (road_type_index_of (C:=Z) road_type_candidates (fields_of mixed_road_store)
          = ([MsgUsing "highway"], Ok 1)) as Hidx by reflexivity.
  assert (records_fit mixed_road_store) as Hfit by repeat constructor.
  assert (Forall (λ p, ¬ field_in 1 ["motorway"] p.1) (pairs_of mixed_road_store))
    as Hnone.
  { repeat constructor;
      (intros [Hf|Hf]%Exists_cons; [discriminate Hf|by apply Exists_nil in Hf]). }
  repeat (split; [assumption|]).
  apply (no_type_match_gives_empty_table mixed_road_store ["motorway"] _ 1
           Hidx Hfit Hnone).
Defined.

Lemma fallback_classifies_on_first_field_witness :
  fields_of boundary_store ≠ [] ∧ records_fit boundary_store ∧
  (∀ c, c ∈ road_type_candidates → c ∉ fields_of boundary_store) ∧
  ∃ out table,
    _extract_road_data boundary_store ["Maharashtra"]
      = (out, Ok ((filter (λ p, field_in 0 ["Maharashtra"] p.1)
                          (pairs_of boundary_store)).*2, table)).
Proof.
  assert (fields_of boundary_store ≠ []) as Hne by discriminate.
  assert (records_fit boundary_store) as Hfit by repeat constructor.
  assert (∀ c, c ∈ road_type_candidates → c ∉ fields_of boundary_store) as Hnone.
  { intros c Hc. vm_compute in Hc.
    repeat (apply elem_of_cons in Hc as [->|Hc];
            [intros Hin; repeat (apply elem_of_cons in Hin as [[=]|Hin]);
             by apply elem_of_nil in Hin|]).
    by apply elem_of_nil in Hc. }
  repeat (split; [assumption|]).
  destruct (fallback_classifies_on_first_field boundary_store ["Maharashtra"]
              Hne Hfit Hnone) as (out & table & Hrun & _).
  by exists out, table.
Defined.

Lemma failed_extraction_stops_the_city_witness :
  shapefile_Reader (base_shapefile_path india) = Some boundary_store ∧
  _extract_city_boundaries boundary_store "Atlantis" "NAME_2"
    = ([], Raise (ValueError (CityNotFound "Atlantis" "NAME_2"))) ∧
  process_city india "Atlantis" "NAME_2" None None
    = ([EProcessing "Atlantis"],
       Fail (Exn (ValueError (CityNotFound "Atlantis" "NAME_2")))).
Proof.
  assert (shapefile_Reader (base_shapefile_path india) = Some boundary_store)
    as Hsf by reflexivity.
  assert (_extract_city_boundaries boundary_store "Atlantis" "NAME_2"
          = ([], Raise (ValueError (CityNotFound "Atlantis" "NAME_2"))))
    as Hrun by reflexivity.
  repeat (split; [assumption|]).
  apply (failed_extraction_stops_the_city india "Atlantis" "NAME_2" None None
           boundary_store [] _ Hsf Hrun).
Defined.

Lemma missing_roads_still_returns_witness :
  shapefile_Reader (base_shapefile_path india) = Some boundary_store ∧
  os_path_exists "elsewhere/roads.shp" = false ∧
  ∃ done,
    process_city india "Pune" "NAME_2" (Some "elsewhere/roads.shp") None
      = (done, Done {| res_city_name := "Pune";
                       res_bbox := (738, 185, 739, 186)%Z;
                       res_bbbike_url := _generate_bbbike_url (738, 185, 739, 186)%Z |}).
Proof.
  assert (shapefile_Reader (base_shapefile_path india) = Some boundary_store)
    as Hsf by reflexivity.
  assert (os_path_exists "elsewhere/roads.shp" = false) as Hmissing by reflexivity.
  assert (_extract_city_boundaries boundary_store "Pune" "NAME_2"
          = ([], Ok ([ {| shapeType := 5; points := [(738, 185); (739, 186)]%Z |} ],
                     (738, 185, 739, 186)%Z))) as Hrun by reflexivity.
  assert (Forall (λ s : Shape Z, points s ≠ [])
            [ {| shapeType := 5; points := [(738, 185); (739, 186)]%Z |} ]) as Hall
    by (repeat constructor; discriminate).
  repeat (split; [assumption|]). eexists.
  apply (missing_roads_still_returns india "Pune" "NAME_2" None boundary_store
           _ _ _ "elsewhere/roads.shp" Hsf Hrun Hall Hmissing).
Defined.

Lemma roads_path_is_inferred_from_base_witness :
  split_on "_" (os_path_basename (base_shapefile_path india)) !! 1 = Some "IND" ∧
  os_path_exists "data/IND_IND.20_1+Pune_roads.shp" = false ∧
  ∃ before res,
    process_city india "Pune" "NAME_2" None None
      = (before ++ [EInferred "data/IND_IND.20_1+Pune_roads.shp";
                    ERoadsMissing "data/IND_IND.20_1+Pune_roads.shp";
                    ECompleted "Pune"],
         Done res).
Proof.
  assert (shapefile_Reader (base_shapefile_path india) = Some boundary_store)
    as Hsf by reflexivity.
  assert (split_on "_" (os_path_basename (base_shapefile_path india)) !! 1 = Some "IND")
    as Hcode by reflexivity.
  assert (os_path_exists "data/IND_IND.20_1+Pune_roads.shp" = false)
    as Hmissing by reflexivity.
  assert (_extract_city_boundaries boundary_store "Pune" "NAME_2"
          = ([], Ok ([ {| shapeType := 5; points := [(738, 185); (739, 186)]%Z |} ],
                     (738, 185, 739, 186)%Z))) as Hrun by reflexivity.
  assert (Forall (λ s : Shape Z, points s ≠ [])
            [ {| shapeType := 5; points := [(738, 185); (739, 186)]%Z |} ]) as Hall
    by (repeat constructor; discriminate).
  repeat (split; [assumption|]).
  pose proof (roads_path_is_inferred_from_base india "Pune" "NAME_2" None boundary_store
                _ _ _ "IND" Hsf Hrun Hall Hcode Hmissing) as Hcity.
  eexists _, _. rewrite Hcity, !app_assoc. reflexivity.
Defined.

Lemma base_name_without_underscore_raises_witness :
  shapefile_Reader (base_shapefile_path cities_only) = Some boundary_store ∧
  has_char "_" (os_path_basename (base_shapefile_path cities_only)) = false ∧
  ∃ done,
    process_city cities_only "Pune" "NAME_2" None None = (done, Fail (Exn IndexError)).
Proof.
  assert (shapefile_Reader (base_shapefile_path cities_only) = Some boundary_store)
    as Hsf by reflexivity.
  assert (has_char "_" (os_path_basename (base_shapefile_path cities_only)) = false)
    as Hname by reflexivity.
  assert (_extract_city_boundaries boundary_store "Pune" "NAME_2"
          = ([], Ok ([ {| shapeType := 5; points := [(738, 185); (739, 186)]%Z |} ],
                     (738, 185, 739, 186)%Z))) as Hrun by reflexivity.
  assert (Forall (λ s : Shape Z, points s ≠ [])
            [ {| shapeType := 5; points := [(738, 185); (739, 186)]%Z |} ]) as Hall
    by (repeat constructor; discriminate).
  repeat (split; [assumption|]). eexists.
  apply (base_name_without_underscore_raises cities_only "Pune" "NAME_2" None
           boundary_store _ _ _ Hsf Hrun Hall Hname).
Defined.

Lemma process_city_returns_extracted_box_witness :
  ∃ done res,
    process_city india "Mumbai City" "NAME_2" (Some "roads/scenario.shp")
                 (Some ["primary"]) = (done, Done res) ∧
    res_city_name res = "Mumbai City" ∧
    res_bbbike_url res = _generate_bbbike_url (res_bbox res) ∧
    last done = Some (ECompleted "Mumbai City") ∧
    ∃ out roads table,
      _extract_road_data (scenario_store road_a road_b road_c) ["primary"]
        = (out, Ok (roads, table)) ∧
      Forall (λ s, points s ≠ []) roads ∧
      ToCsv "./output/Mumbai_City_roads.csv" table ∈ done.
Proof.
  destruct (process_city india "Mumbai City" "NAME_2" (Some "roads/scenario.shp")
              (Some ["primary"])) as [done [res|e]] eqn:Hrun;
    [|vm_compute in Hrun; discriminate].
  exists done, res. split; [reflexivity|].
  destruct (process_city_returns_extracted_box india "Mumbai City" "NAME_2"
              (Some "roads/scenario.shp") (Some ["primary"]) done res Hrun)
    as (Hname & Hurl & _ & Hlast & Hcsv).
  split; [exact Hname|]. split; [exact Hurl|]. split; [exact Hlast|].
  assert (os_path_exists "roads/scenario.shp" = true) as Hexists by reflexivity.
  destruct (Hcsv "roads/scenario.shp" eq_refl Hexists)
    as (roads_sf & out & roads & table & Hopen & Hcall & Hpoints & Hin & _).
  vm_compute in Hopen. injection Hopen as <-.
  by exists out, roads, table.
Defined.

Lemma boundary_without_points_stops_the_city_witness :
  shapefile_Reader (base_shapefile_path goa) = Some partial_store ∧
  _extract_city_boundaries partial_store "North Goa" "NAME_2"
    = ([], Ok ([ {| shapeType := 5; points := [(738, 155); (740, 157)]%Z |} ]
                 ++ {| shapeType := 5; points := [] |} :: [],
               (738, 155, 740, 157)%Z)) ∧
  process_city goa "North Goa" "NAME_2" None None
    = ([EProcessing "North Goa";
        EUrl "North Goa" (_generate_bbbike_url (738, 155, 740, 157)%Z);
        PltFigure 10 8;
        PltPlot [738; 740]%Z [155; 157]%Z "1"],
       Fail (UnpackError 2 0)).
Proof.
  assert (shapefile_Reader (base_shapefile_path goa) = Some partial_store)
    as Hsf by reflexivity.
  assert (_extract_city_boundaries partial_store "North Goa" "NAME_2"
          = ([], Ok ([ {| shapeType := 5; points := [(738, 155); (740, 157)]%Z |} ]
                       ++ {| shapeType := 5; points := [] |} :: [],
                     (738, 155, 740, 157)%Z))) as Hrun by reflexivity.
  assert (Forall (λ s : Shape Z, points s ≠ [])
            [ {| shapeType := 5; points := [(738, 155); (740, 157)]%Z |} ]) as Hbefore
    by (repeat constructor; discriminate).
  repeat (split; [assumption|]).
  apply (boundary_without_points_stops_the_city goa "North Goa" "NAME_2" None None
           partial_store [] _ {| shapeType := 5; points := [] |} [] _
           Hsf Hrun Hbefore eq_refl).
Defined.
